(** * sim_humidificador: vapour mass balance of a humidified enclosure

    Shallow embedding of [src/sim_humidificador.py].

    Numbers.  The program computes with Python floats.  They are idealised
    here as real numbers ([R] of the Standard Library): rounding, overflow,
    infinities and NaN are outside the model.  What is kept of Python's
    semantics is everything that decides control flow and failure:
    - [x / y] raises [ZeroDivisionError] when [y] is zero ([Py.truediv]);
    - [int x] truncates towards zero ([Py.int]);
    - [range n] is empty for [n <= 0] ([Py.range]);
    - [max a b] and [min a b] are [Rmax] and [Rmin];
    - the string comparison [modo_cond == 'fijo'] is [String.eqb].

    One rounding decides control flow: that of the quotient
    [tiempo_max / dt], whose integer part is the number of steps.
    [simular_relleno] takes the exact quotient;
    [simular_relleno_redondeado] takes the quotient as a double, rounded
    by an arbitrary function, infinite results included.

    Lists ([tiempos], [rhos]) are kept in the order of the source, which
    appends at the end. *)

From Stdlib Require Import Reals Lra Psatz String ZArith Lia List.
Import ListNotations.
Open Scope R_scope.

(** ** Python primitives *)

Module Py.

Inductive excepcion : Type := ZeroDivisionError | OverflowError.

Inductive resultado (A : Type) : Type :=
| Ok (a : A)
| Raise (e : excepcion).
Arguments Ok {A} a.
Arguments Raise {A} e.

Definition bind {A B : Type} (m : resultado A) (k : A -> resultado B)
  : resultado B :=
  match m with
  | Ok a => k a
  | Raise e => Raise e
  end.

(** Float division [x / y]. *)
Definition truediv (x y : R) : resultado R :=
  if Req_dec_T y 0 then Raise ZeroDivisionError else Ok (x / y).

(** [int(x)] on a float: truncation towards zero. *)
Definition int (x : R) : Z :=
  if Rle_dec 0 x then Int_part x else (- Int_part (- x))%Z.

(** Number of iterations of [for i in range(n)]. *)
Definition range (n : Z) : nat := Z.to_nat n.

End Py.

Import Py.

Notation "x <- m ;; k" := (bind m (fun x => k))
  (at level 61, m at next level, right associativity).

(** ** Saturation model (source lines 42-72) *)

Definition presion_saturacion (T_c : R) : resultado R :=
  q <- truediv (17.62 * T_c) (243.12 + T_c) ;;
  Ok (6.112 * exp q).

Definition rho_saturacion (T_c : R) : resultado R :=
  e_s <- presion_saturacion T_c ;;
  let T_k := T_c + 273.15 in
  rho <- truediv (216.7 * e_s) T_k ;;
  Ok rho.

Definition rho_desde_HR (HR T_c : R) : resultado R :=
  r <- rho_saturacion T_c ;;
  Ok ((HR / 100) * r).

(** ** Integrator (source lines 78-152) *)

(** The keyword arguments of [simular_relleno]. *)
Record Config : Type := mkConfig {
  V : R;
  dotm : R;
  T : R;
  HR0 : R;
  HR_out : R;
  ACH : R;
  k_cond : R;
  modo_cond : string;
  dt : R;
  HR_objetivo : R;
  tiempo_max : R
}.

(** The local variables the loop mutates. *)
Record Estado : Type := mkEstado {
  rho_v : R;
  masa_condensada : R;
  masa_inyectada : R;
  tiempos : list R;
  rhos : list R
}.

(** The returned tuple
    [(tiempos, rhos, t, masa_inyectada, masa_condensada, rho_sat)]. *)
Record Salida : Type := mkSalida {
  r_tiempos : list R;
  r_rhos : list R;
  r_t_obj : option R;
  r_masa_in : R;
  r_masa_cond : R;
  r_rho_sat : R
}.

(** Line 113. *)
Definition masa_in (c : Config) : R := dotm c * dt c.

(** Line 116. *)
Definition masa_actual (c : Config) (rho : R) : R := rho * V c.

(** Lines 119-122. *)
Definition perdida_vent (c : Config) (rho_out rho : R) : R :=
  let Q := ACH c * V c / 60 in
  Q * (rho - rho_out) * dt c.

(** Lines 125-129. *)
Definition perdida_cond (c : Config) (rho_sat rho : R) : R :=
  if String.eqb (modo_cond c) "fijo"
  then Rmin (k_cond c * dt c) (Rmax 0 (masa_actual c rho))
  else
    let exceso := Rmax 0 (rho - rho_sat) in
    exceso * V c * k_cond c * dt c.

(** Line 132. *)
Definition nueva_masa (c : Config) (rho_sat rho_out rho : R) : R :=
  masa_actual c rho + masa_in c
  - perdida_vent c rho_out rho - perdida_cond c rho_sat rho.

(** One iteration of the loop body, lines 110-146: the time of the new
    sample and the updated locals. *)
Definition paso (c : Config) (rho_sat rho_out : R) (i : nat) (e : Estado)
  : resultado (R * Estado) :=
  let t := INR (i + 1) * dt c in
  q <- truediv (nueva_masa c rho_sat rho_out (rho_v e)) (V c) ;;
  let nuevo_rho := Rmax 0 q in
  let '(condensada, nuevo_rho') :=
    if Rgt_dec nuevo_rho rho_sat
    then (masa_condensada e + (nuevo_rho - rho_sat) * V c, rho_sat)
    else (masa_condensada e, nuevo_rho) in
  Ok (t, {| rho_v := nuevo_rho';
            masa_condensada := condensada + perdida_cond c rho_sat (rho_v e);
            masa_inyectada := masa_inyectada e + masa_in c;
            tiempos := tiempos e ++ [t];
            rhos := rhos e ++ [nuevo_rho'] |}).

Definition salida_de (e : Estado) (t : option R) (rho_sat : R) : Salida :=
  {| r_tiempos := tiempos e;
     r_rhos := rhos e;
     r_t_obj := t;
     r_masa_in := masa_inyectada e;
     r_masa_cond := masa_condensada e;
     r_rho_sat := rho_sat |}.

(** [for i in range(pasos_max)], with [n] iterations left and [i] the
    loop index; lines 109-152. *)
Fixpoint bucle (c : Config) (rho_sat rho_out rho_objetivo : R)
  (n i : nat) (e : Estado) {struct n} : resultado Salida :=
  match n with
  | O => Ok (salida_de e None rho_sat)
  | S n' =>
      te <- paso c rho_sat rho_out i e ;;
      let '(t, e') := te in
      if Rge_dec (rho_v e') rho_objetivo
      then Ok (salida_de e' (Some t) rho_sat)
      else bucle c rho_sat rho_out rho_objetivo n' (S i) e'
  end.

(** Line 107. *)
Definition pasos_max (c : Config) : resultado Z :=
  q <- truediv (tiempo_max c) (dt c) ;;
  Ok (int q).

(** Lines 101-104: the locals before the loop. *)
Definition estado_inicial (rho_v0 : R) : Estado :=
  {| rho_v := rho_v0;
     masa_condensada := 0;
     masa_inyectada := 0;
     tiempos := [0];
     rhos := [rho_v0] |}.

Definition simular_relleno (c : Config) : resultado Salida :=
  rho_sat <- rho_saturacion (T c) ;;
  rho_v0 <- rho_desde_HR (HR0 c) (T c) ;;
  rho_out <- rho_desde_HR (HR_out c) (T c) ;;
  let a := ACH c / 60 in
  let rho_objetivo := (HR_objetivo c / 100) * rho_sat in
  n <- pasos_max c ;;
  bucle c rho_sat rho_out rho_objetivo (range n) 0 (estado_inicial rho_v0).

(** ** Vocabulary of the specification *)

(** Closed form of the saturation density (Magnus formula, g/m^3). *)
Definition rho_sat_de (T_c : R) : R :=
  216.7 * (6.112 * exp (17.62 * T_c / (243.12 + T_c))) / (T_c + 273.15).

(** Density recorded after one step that starts at density [rho]: the
    floor at zero, then the saturation clamp (lines 133-139). *)
Definition siguiente_rho (c : Config) (rho_sat rho_out rho : R) : R :=
  let d := Rmax 0 (nueva_masa c rho_sat rho_out rho / V c) in
  if Rgt_dec d rho_sat then rho_sat else d.

(** Mass the saturation clamp reclassifies as condensed in one step that
    starts at density [rho] (lines 136-138); zero when it does not fire. *)
Definition exceso_tope (c : Config) (rho_sat rho_out rho : R) : R :=
  let d := Rmax 0 (nueva_masa c rho_sat rho_out rho / V c) in
  if Rgt_dec d rho_sat then (d - rho_sat) * V c else 0.

(** [cadena f x l]: the samples [l] are the successive values of [f]
    starting from [x]. *)
Fixpoint cadena (f : R -> R) (x : R) (l : list R) : Prop :=
  match l with
  | [] => True
  | y :: l' => y = f x /\ cadena f y l'
  end.

(** Sum, over the steps that produced the samples [l] from [x], of a
    per-step quantity [g] of the density at the start of the step. *)
Fixpoint acumulado (g : R -> R) (x : R) (l : list R) : R :=
  match l with
  | [] => 0
  | y :: l' => g x + acumulado g y l'
  end.

(** Target density (line 106). *)
Definition rho_objetivo_de (c : Config) (rho_sat : R) : R :=
  (HR_objetivo c / 100) * rho_sat.

(** Temperatures at which both denominators of the saturation model are
    positive; every physically sensible temperature is one. *)
Definition temperatura_admisible (T_c : R) : Prop := -243.12 < T_c.

(** Valid configurations, section 3 of the specification. *)
Record config_valida (c : Config) : Prop := {
  v_V : 0 < V c;
  v_dotm : 0 <= dotm c;
  v_T : temperatura_admisible (T c);
  v_HR0 : 0 <= HR0 c <= 100;
  v_HR_out : 0 <= HR_out c <= 100;
  v_ACH : 0 <= ACH c;
  v_k_cond : 0 <= k_cond c;
  v_dt : 0 < dt c;
  v_tiempo_max : 0 < tiempo_max c
}.

(** What section 7 of the specification calls an invalid configuration. *)
Definition config_invalida (c : Config) : Prop :=
  V c <= 0 \/ dt c <= 0
  \/ ~ (0 <= HR0 c <= 100) \/ ~ (0 <= HR_out c <= 100)
  \/ (modo_cond c <> "fijo"%string /\ modo_cond c <> "proporcional"%string).

(** The configuration [c] with another condensation mode. *)
Definition con_modo (c : Config) (m : string) : Config :=
  {| V := V c; dotm := dotm c; T := T c; HR0 := HR0 c; HR_out := HR_out c;
     ACH := ACH c; k_cond := k_cond c; modo_cond := m; dt := dt c;
     HR_objetivo := HR_objetivo c; tiempo_max := tiempo_max c |}.

(** The parameters of the example run (lines 160-174). *)
Definition config_ejemplo : Config :=
  {| V := 0.2; dotm := 3.3; T := 20; HR0 := 0; HR_out := 20; ACH := 10;
     k_cond := 0.55; modo_cond := "fijo"; dt := 0.05; HR_objetivo := 100;
     tiempo_max := 60 |}.

(** Mass one step adds to [masa_condensada] (lines 138 and 142): the clamp
    excess and the condensation loss. *)
Definition condensado_paso (c : Config) (rho_sat rho_out rho : R) : R :=
  exceso_tope c rho_sat rho_out rho + perdida_cond c rho_sat rho.

(** Number of iterations the loop is given. *)
Definition pasos_de (c : Config) : nat :=
  Z.to_nat (Int_part (tiempo_max c / dt c)).

(** A one-step run on round numbers: a sealed-off exterior at 0 % and
    0 degrees Celsius, one step of 0.05 min. *)
Definition config_un_paso : Config :=
  {| V := 0.2; dotm := 3.3; T := 0; HR0 := 0; HR_out := 0; ACH := 10;
     k_cond := 0.55; modo_cond := "fijo"; dt := 0.05; HR_objetivo := 100;
     tiempo_max := 0.05 |}.

(** What that run returns. *)
Definition salida_un_paso : Salida :=
  {| r_tiempos := [0; 0.05];
     r_rhos := [0; 0.825];
     r_t_obj := None;
     r_masa_in := 0.165;
     r_masa_cond := 0;
     r_rho_sat := 1324.4704 / 273.15 |}.

(** Target equal to the initial humidity: [simular_relleno(T=0.0,
    HR0=100.0)], every other argument at its default. *)
Definition config_objetivo_inicial : Config :=
  {| V := 0.2; dotm := 3.3; T := 0; HR0 := 100; HR_out := 40; ACH := 1;
     k_cond := 0.15; modo_cond := "fijo"; dt := 0.01; HR_objetivo := 100;
     tiempo_max := 60 |}.

(** The one-step run with a zero volume. *)
Definition config_volumen_cero : Config :=
  {| V := 0; dotm := 3.3; T := 0; HR0 := 0; HR_out := 0; ACH := 10;
     k_cond := 0.55; modo_cond := "fijo"; dt := 0.05; HR_objetivo := 100;
     tiempo_max := 0.05 |}.

(** The one-step run with a zero time step. *)
Definition config_paso_cero : Config :=
  {| V := 0.2; dotm := 3.3; T := 0; HR0 := 0; HR_out := 0; ACH := 10;
     k_cond := 0.55; modo_cond := "fijo"; dt := 0; HR_objetivo := 100;
     tiempo_max := 0.05 |}.

(** A humid exterior and no injection:
    [simular_relleno(dotm=0.0, ACH=60.0, dt=0.5, HR_objetivo=10.0)],
    every other argument at its default. *)
Definition config_exterior_humedo : Config :=
  {| V := 0.2; dotm := 0; T := 20; HR0 := 0; HR_out := 40; ACH := 60;
     k_cond := 0.15; modo_cond := "fijo"; dt := 0.5; HR_objetivo := 10;
     tiempo_max := 60 |}.

(** No injection, an exterior drier than the enclosure and a coarse step
    that replaces three volumes of air:
    [simular_relleno(dotm=0.0, HR0=50.0, ACH=60.0,
    modo_cond='proporcional', dt=3.0, HR_objetivo=60.0)]. *)
Definition config_sobrepaso : Config :=
  {| V := 0.2; dotm := 0; T := 20; HR0 := 50; HR_out := 40; ACH := 60;
     k_cond := 0.15; modo_cond := "proporcional"; dt := 3;
     HR_objetivo := 60; tiempo_max := 60 |}.

(** A run without injection: [simular_relleno(dotm=0.0)], every other
    argument at its default. *)
Definition config_sin_inyeccion : Config :=
  {| V := 0.2; dotm := 0; T := 20; HR0 := 0; HR_out := 40; ACH := 1;
     k_cond := 0.15; modo_cond := "fijo"; dt := 0.01; HR_objetivo := 100;
     tiempo_max := 60 |}.

(** Exponent of the Magnus formula (line 47). *)
Definition exponente_magnus (t : R) : R := 17.62 * t / (243.12 + t).

(** Line 186 of the example block, [np.array(rhos) / rho_sat * 100.0]:
    the recorded densities as relative humidities, element by element
    (a numpy division raises nothing). *)
Definition HRs (rhos : list R) (rho_sat : R) : list R :=
  map (fun rho => rho / rho_sat * 100) rhos.

(** The configuration [c] with another condensation coefficient. *)
Definition con_k_cond (c : Config) (k : R) : Config :=
  {| V := V c; dotm := dotm c; T := T c; HR0 := HR0 c; HR_out := HR_out c;
     ACH := ACH c; k_cond := k; modo_cond := modo_cond c; dt := dt c;
     HR_objetivo := HR_objetivo c; tiempo_max := tiempo_max c |}.

(** Least mass a step can gain while the density is at most [rho_sat]:
    the injected mass minus the largest condensation loss [k_cond * dt]
    and the ventilation loss at saturation. *)
Definition ganancia_minima (c : Config) (rho_sat : R) : R :=
  dotm c * dt c - k_cond c * dt c
  - (ACH c * V c / 60) * (rho_sat - HR_out c / 100 * rho_sat) * dt c.


(** Line 107 with the quotient as the double division returns it.  [fl]
    stands for the rounding of the exact quotient to a double: [Some q']
    for a finite double [q'], [None] for an infinite one, on which [int]
    raises [OverflowError].  What is proved of it is proved for every
    [fl]; [pasos_max] is the instance that does not round. *)
Definition pasos_max_redondeado (fl : R -> option R) (c : Config)
  : resultado Z :=
  q <- truediv (tiempo_max c) (dt c) ;;
  match fl q with
  | Some q' => Ok (int q')
  | None => Raise OverflowError
  end.

(** [simular_relleno], lines 96-152, with that step count. *)
Definition simular_relleno_redondeado (fl : R -> option R) (c : Config)
  : resultado Salida :=
  rho_sat <- rho_saturacion (T c) ;;
  rho_v0 <- rho_desde_HR (HR0 c) (T c) ;;
  rho_out <- rho_desde_HR (HR_out c) (T c) ;;
  let a := ACH c / 60 in
  let rho_objetivo := (HR_objetivo c / 100) * rho_sat in
  n <- pasos_max_redondeado fl c ;;
  bucle c rho_sat rho_out rho_objetivo (range n) 0 (estado_inicial rho_v0).

(** Atmospheric temperatures: the exponential of the Magnus formula is
    far from the overflow and underflow of a double. *)
Definition temperatura_atmosferica (T_c : R) : Prop := -100 <= T_c <= 100.

(** The one-step run with an initial humidity of 150 %. *)
Definition config_HR_fuera : Config :=
  {| V := 0.2; dotm := 3.3; T := 0; HR0 := 150; HR_out := 0; ACH := 10;
     k_cond := 0.55; modo_cond := "fijo"; dt := 0.05; HR_objetivo := 100;
     tiempo_max := 0.05 |}.

(** The one-step run with a negative volume, and what it returns. *)
Definition config_volumen_negativo : Config :=
  {| V := -0.2; dotm := 3.3; T := 0; HR0 := 0; HR_out := 0; ACH := 10;
     k_cond := 0.55; modo_cond := "fijo"; dt := 0.05; HR_objetivo := 100;
     tiempo_max := 0.05 |}.

Definition salida_volumen_negativo : Salida :=
  {| r_tiempos := [0; 0.05];
     r_rhos := [0; 0];
     r_t_obj := None;
     r_masa_in := 0.165;
     r_masa_cond := 0;
     r_rho_sat := 1324.4704 / 273.15 |}.

(** The one-step run with a negative time step. *)
Definition config_paso_negativo : Config :=
  {| V := 0.2; dotm := 3.3; T := 0; HR0 := 0; HR_out := 0; ACH := 10;
     k_cond := 0.55; modo_cond := "fijo"; dt := -0.05; HR_objetivo := 100;
     tiempo_max := 0.05 |}.

(** A horizon of 0.3 min in steps of 0.1 min, in a sealed enclosure
    without condensation:
    [simular_relleno(dotm=1.0, T=0.0, HR_out=0.0, ACH=0.0, k_cond=0.0,
    dt=0.1, tiempo_max=0.3)].  The double quotient [0.3 / 0.1] is
    2.9999999999999996, so two steps are run. *)
Definition config_tres_decimas : Config :=
  {| V := 0.2; dotm := 1; T := 0; HR0 := 0; HR_out := 0; ACH := 0;
     k_cond := 0; modo_cond := "fijo"; dt := 0.1; HR_objetivo := 100;
     tiempo_max := 0.3 |}.

Definition fl_tres_decimas (q : R) : option R := Some 2.9999999999999996.

Definition salida_dos_pasos : Salida :=
  {| r_tiempos := [0; 0.1; 0.2];
     r_rhos := [0; 0.5; 1];
     r_t_obj := None;
     r_masa_in := 0.2;
     r_masa_cond := 0;
     r_rho_sat := 1324.4704 / 273.15 |}.

(** The example run with a target of 120 %. *)
Definition config_objetivo_120 : Config :=
  {| V := 0.2; dotm := 3.3; T := 20; HR0 := 0; HR_out := 20; ACH := 10;
     k_cond := 0.55; modo_cond := "fijo"; dt := 0.05; HR_objetivo := 120;
     tiempo_max := 60 |}.

(** * Properties *)

(** ** The saturation model *)

Lemma truediv_ok (x y : R) : y <> 0 -> truediv x y = Ok (x / y).
Proof.
  intros Hy. unfold truediv. destruct (Req_dec_T y 0); [contradiction | easy].
Qed.

Lemma truediv_cero (x : R) : truediv x 0 = Raise ZeroDivisionError.
Proof.
  unfold truediv. destruct (Req_dec_T 0 0); [easy | contradiction].
Qed.

Lemma rho_saturacion_ok (T_c : R) :
  T_c <> -243.12 -> T_c <> -273.15 ->
  rho_saturacion T_c = Ok (rho_sat_de T_c).
Proof.
  intros H1 H2. unfold rho_saturacion, presion_saturacion.
  rewrite truediv_ok by lra. cbn.
  rewrite truediv_ok by lra. reflexivity.
Qed.

Lemma rho_sat_de_pos (T_c : R) :
  temperatura_admisible T_c -> 0 < rho_sat_de T_c.
Proof.
  unfold temperatura_admisible, rho_sat_de. intros HT.
  pose proof (exp_pos (17.62 * T_c / (243.12 + T_c))) as He.
  apply Rdiv_lt_0_compat; lra.
Qed.

Lemma rho_desde_HR_ok (HR T_c : R) :
  T_c <> -243.12 -> T_c <> -273.15 ->
  rho_desde_HR HR T_c = Ok (HR / 100 * rho_sat_de T_c).
Proof.
  intros H1 H2. unfold rho_desde_HR.
  rewrite rho_saturacion_ok by assumption. reflexivity.
Qed.

(** ** One step *)

Lemma paso_ok (c : Config) (rho_sat rho_out : R) (i : nat) (e : Estado) :
  V c <> 0 ->
  paso c rho_sat rho_out i e =
  Ok (INR (i + 1) * dt c,
      {| rho_v := siguiente_rho c rho_sat rho_out (rho_v e);
         masa_condensada :=
           masa_condensada e + exceso_tope c rho_sat rho_out (rho_v e)
           + perdida_cond c rho_sat (rho_v e);
         masa_inyectada := masa_inyectada e + masa_in c;
         tiempos := tiempos e ++ [INR (i + 1) * dt c];
         rhos := rhos e ++ [siguiente_rho c rho_sat rho_out (rho_v e)] |}).
Proof.
  intros HV. unfold paso, siguiente_rho, exceso_tope.
  rewrite truediv_ok by assumption. cbn.
  destruct (Rgt_dec _ rho_sat); cbn; repeat f_equal; lra.
Qed.

Lemma paso_volumen_cero (c : Config) (rho_sat rho_out : R) (i : nat)
  (e : Estado) :
  V c = 0 -> paso c rho_sat rho_out i e = Raise ZeroDivisionError.
Proof.
  intros HV. unfold paso. rewrite HV, truediv_cero. reflexivity.
Qed.

Lemma bucle_S (c : Config) (rho_sat rho_out obj : R) (n i : nat) (e : Estado) :
  V c <> 0 ->
  bucle c rho_sat rho_out obj (S n) i e =
  let y := siguiente_rho c rho_sat rho_out (rho_v e) in
  let t := INR (i + 1) * dt c in
  let e' :=
    {| rho_v := y;
       masa_condensada :=
         masa_condensada e + exceso_tope c rho_sat rho_out (rho_v e)
         + perdida_cond c rho_sat (rho_v e);
       masa_inyectada := masa_inyectada e + masa_in c;
       tiempos := tiempos e ++ [t];
       rhos := rhos e ++ [y] |} in
  if Rge_dec y obj then Ok (salida_de e' (Some t) rho_sat)
  else bucle c rho_sat rho_out obj n (S i) e'.
Proof.
  intros HV. cbn [bucle]. rewrite paso_ok by assumption. reflexivity.
Qed.

Lemma bucle_S_volumen_cero (c : Config) (rho_sat rho_out obj : R) (n i : nat)
  (e : Estado) :
  V c = 0 -> bucle c rho_sat rho_out obj (S n) i e = Raise ZeroDivisionError.
Proof.
  intros HV. cbn [bucle]. rewrite paso_volumen_cero by assumption. reflexivity.
Qed.

(** The loop never faults when the volume is not zero. *)
Lemma bucle_total (c : Config) (rho_sat rho_out obj : R) (n : nat) :
  V c <> 0 ->
  forall i e, exists s, bucle c rho_sat rho_out obj n i e = Ok s.
Proof.
  intros HV. induction n as [|n IH]; intros i e.
  - eexists. reflexivity.
  - rewrite bucle_S by assumption. cbv zeta.
    destruct (Rge_dec _ obj); [eexists; reflexivity | apply IH].
Qed.

(** ** The loop as a trace

    The imperative loop, with its five mutated locals, computes the pure
    trace of [siguiente_rho]: [news] are the samples it appends. *)

Lemma bucle_traza (c : Config) (rho_sat rho_out obj : R) (n : nat) :
  forall (i : nat) (e : Estado) (s : Salida),
  bucle c rho_sat rho_out obj n i e = Ok s ->
  exists news : list R,
    (length news <= n)%nat
    /\ r_rhos s = rhos e ++ news
    /\ r_tiempos s =
       tiempos e ++ map (fun j => INR (j + 1) * dt c) (seq i (length news))
    /\ cadena (siguiente_rho c rho_sat rho_out) (rho_v e) news
    /\ r_masa_in s = masa_inyectada e + INR (length news) * masa_in c
    /\ r_masa_cond s =
       masa_condensada e
       + acumulado (condensado_paso c rho_sat rho_out) (rho_v e) news
    /\ r_rho_sat s = rho_sat
    /\ (r_t_obj s = None ->
        length news = n /\ Forall (fun r => r < obj) news)
    /\ (forall t, r_t_obj s = Some t ->
        exists pre y,
          news = pre ++ [y] /\ Forall (fun r => r < obj) pre
          /\ y >= obj /\ t = INR (i + length news) * dt c).
Proof.
  induction n as [|n IH]; intros i e s H.
  - cbn in H. injection H as <-. exists []. cbn.
    rewrite !app_nil_r. repeat split; try lra; try easy.
  - destruct (Req_dec_T (V c) 0) as [HV|HV].
    { rewrite bucle_S_volumen_cero in H by assumption. discriminate. }
    rewrite bucle_S in H by assumption. cbv zeta in H.
    set (y := siguiente_rho c rho_sat rho_out (rho_v e)) in *.
    destruct (Rge_dec y obj) as [Hy|Hy].
    + injection H as <-. exists [y]. cbn.
      repeat split; try lra; try easy; try lia.
      * unfold condensado_paso. lra.
      * intros t [= <-]. exists [], y. cbn. repeat split; auto.
    + apply IH in H.
      cbn [rho_v masa_condensada masa_inyectada tiempos rhos] in H.
      destruct H
        as (news & Hlen & Hr & Ht & Hc & Hin & Hcond & Hs & Hn & Hsome).
      exists (y :: news). cbn [length cadena acumulado seq map].
      repeat split; try easy; try lia.
      * rewrite Hr, <- app_assoc. reflexivity.
      * rewrite Ht, <- app_assoc. reflexivity.
      * rewrite Hin. destruct (length news); cbn [INR]; try lra.
      * rewrite Hcond. unfold condensado_paso. fold y. lra.
      * f_equal. apply Hn. assumption.
      * constructor; [lra | apply Hn; assumption].
      * intros t Ht'. destruct (Hsome t Ht') as (pre & z & -> & Hpre & Hz & ->).
        exists (y :: pre), z. repeat split; auto.
        -- constructor; [lra | assumption].
        -- do 2 f_equal. lia.
Qed.

(** ** The whole run *)

Lemma int_range (q : R) : range (int q) = Z.to_nat (Int_part q).
Proof.
  unfold range, int. destruct (Rle_dec 0 q) as [Hq|Hq]; [reflexivity|].
  destruct (base_Int_part q) as [Hq1 _].
  destruct (base_Int_part (- q)) as [_ Hq2].
  assert (H1 : (Int_part q < 0)%Z) by (apply lt_IZR; lra).
  assert (H2 : (-1 < Int_part (- q))%Z) by (apply lt_IZR; lra).
  lia.
Qed.

Lemma pasos_max_ok (c : Config) :
  dt c <> 0 -> pasos_max c = Ok (int (tiempo_max c / dt c)).
Proof.
  intros Hdt. unfold pasos_max. rewrite truediv_ok by assumption. reflexivity.
Qed.

Lemma simular_relleno_eq (c : Config) :
  T c <> -243.12 -> T c <> -273.15 -> dt c <> 0 ->
  simular_relleno c =
  bucle c (rho_sat_de (T c)) (HR_out c / 100 * rho_sat_de (T c))
    (rho_objetivo_de c (rho_sat_de (T c))) (pasos_de c) 0
    (estado_inicial (HR0 c / 100 * rho_sat_de (T c))).
Proof.
  intros H1 H2 Hdt. unfold simular_relleno.
  rewrite rho_saturacion_ok, !rho_desde_HR_ok, pasos_max_ok by assumption.
  cbn [bind]. rewrite int_range. reflexivity.
Qed.

Lemma simular_relleno_inv (c : Config) (s : Salida) :
  simular_relleno c = Ok s ->
  T c <> -243.12 /\ T c <> -273.15 /\ dt c <> 0.
Proof.
  unfold simular_relleno, rho_saturacion, presion_saturacion, pasos_max.
  intros H.
  destruct (Req_dec_T (T c) (-243.12)) as [E|E].
  { rewrite E in H. replace (243.12 + -243.12) with 0 in H by lra.
    rewrite truediv_cero in H. discriminate. }
  rewrite (truediv_ok _ (243.12 + T c)) in H by lra. cbn [bind] in H.
  destruct (Req_dec_T (T c) (-273.15)) as [E'|E'].
  { rewrite E' in H. replace (-273.15 + 273.15) with 0 in H by lra.
    rewrite truediv_cero in H. discriminate. }
  destruct (Req_dec_T (dt c) 0) as [E''|E''].
  { rewrite !rho_desde_HR_ok, (truediv_ok _ (T c + 273.15)) in H by lra.
    rewrite E'', truediv_cero in H. discriminate. }
  auto.
Qed.

Lemma valida_admisible (c : Config) :
  config_valida c ->
  T c <> -243.12 /\ T c <> -273.15 /\ dt c <> 0 /\ V c <> 0
  /\ 0 < rho_sat_de (T c).
Proof.
  intros Hv. pose proof (rho_sat_de_pos _ (v_T c Hv)) as Hp.
  destruct Hv as [? ? HT ? ? ? ? ? ?]. unfold temperatura_admisible in HT.
  repeat split; try lra.
Qed.

(** A valid configuration always produces a result. *)
Lemma simular_relleno_total (c : Config) :
  config_valida c -> exists s, simular_relleno c = Ok s.
Proof.
  intros Hv. destruct (valida_admisible c Hv) as (H1 & H2 & H3 & H4 & _).
  rewrite simular_relleno_eq by assumption. apply bucle_total. assumption.
Qed.

(** The recorded densities of a run: the initial one, then the trace of
    [siguiente_rho]. *)
Lemma simular_relleno_traza (c : Config) (s : Salida) :
  simular_relleno c = Ok s ->
  let rs := rho_sat_de (T c) in
  let ro := HR_out c / 100 * rs in
  let obj := rho_objetivo_de c rs in
  let rho0 := HR0 c / 100 * rs in
  exists news : list R,
    (length news <= pasos_de c)%nat
    /\ r_rhos s = rho0 :: news
    /\ r_tiempos s =
       0 :: map (fun j => INR (j + 1) * dt c) (seq 0 (length news))
    /\ cadena (siguiente_rho c rs ro) rho0 news
    /\ r_masa_in s = INR (length news) * masa_in c
    /\ r_masa_cond s = acumulado (condensado_paso c rs ro) rho0 news
    /\ r_rho_sat s = rs
    /\ (r_t_obj s = None ->
        length news = pasos_de c /\ Forall (fun r => r < obj) news)
    /\ (forall t, r_t_obj s = Some t ->
        exists pre y,
          news = pre ++ [y] /\ Forall (fun r => r < obj) pre
          /\ y >= obj /\ t = INR (length news) * dt c).
Proof.
  intros H. destruct (simular_relleno_inv c s H) as (H1 & H2 & H3).
  rewrite simular_relleno_eq in H by assumption.
  apply bucle_traza in H. cbn [estado_inicial rho_v masa_condensada
    masa_inyectada tiempos rhos app] in H. cbv zeta.
  destruct H as (news & Hlen & Hr & Ht & Hc & Hin & Hcond & Hs & Hn & Hsome).
  exists news. repeat split; try easy; try lra.
  - apply Hn; assumption.
  - apply Hn; assumption.
Qed.

(** ** The run with the rounded step count *)

Lemma atmosferica_admisible (T_c : R) :
  temperatura_atmosferica T_c ->
  T_c <> -243.12 /\ T_c <> -273.15 /\ 0 < rho_sat_de T_c.
Proof.
  intros [H1 H2]. repeat split; try lra.
  apply rho_sat_de_pos. unfold temperatura_admisible. lra.
Qed.

Lemma simular_relleno_redondeado_eq (fl : R -> option R) (c : Config)
  (q' : R) :
  T c <> -243.12 -> T c <> -273.15 -> dt c <> 0 ->
  fl (tiempo_max c / dt c) = Some q' ->
  simular_relleno_redondeado fl c =
  bucle c (rho_sat_de (T c)) (HR_out c / 100 * rho_sat_de (T c))
    (rho_objetivo_de c (rho_sat_de (T c))) (Z.to_nat (Int_part q')) 0
    (estado_inicial (HR0 c / 100 * rho_sat_de (T c))).
Proof.
  intros H1 H2 Hdt Hq. unfold simular_relleno_redondeado, pasos_max_redondeado.
  rewrite rho_saturacion_ok, !rho_desde_HR_ok, truediv_ok by assumption.
  cbn [bind]. rewrite Hq. cbn [bind]. rewrite int_range. reflexivity.
Qed.

Lemma simular_relleno_redondeado_inv (fl : R -> option R) (c : Config)
  (s : Salida) :
  simular_relleno_redondeado fl c = Ok s ->
  T c <> -243.12 /\ T c <> -273.15 /\ dt c <> 0
  /\ exists q', fl (tiempo_max c / dt c) = Some q'.
Proof.
  unfold simular_relleno_redondeado, rho_saturacion, presion_saturacion,
    pasos_max_redondeado.
  intros H.
  destruct (Req_dec_T (T c) (-243.12)) as [E|E].
  { rewrite E in H. replace (243.12 + -243.12) with 0 in H by lra.
    rewrite truediv_cero in H. discriminate. }
  rewrite (truediv_ok _ (243.12 + T c)) in H by lra. cbn [bind] in H.
  destruct (Req_dec_T (T c) (-273.15)) as [E'|E'].
  { rewrite E' in H. replace (-273.15 + 273.15) with 0 in H by lra.
    rewrite truediv_cero in H. discriminate. }
  rewrite !rho_desde_HR_ok, (truediv_ok _ (T c + 273.15)) in H by lra.
  cbn [bind] in H.
  destruct (Req_dec_T (dt c) 0) as [E''|E''].
  { rewrite E'', truediv_cero in H. discriminate. }
  rewrite truediv_ok in H by assumption. cbn [bind] in H.
  destruct (fl (tiempo_max c / dt c)) as [q'|]; [|discriminate].
  repeat split; try assumption. exists q'. reflexivity.
Qed.

(** Without rounding it is [simular_relleno]. *)
Lemma simular_relleno_sin_redondeo (c : Config) :
  simular_relleno_redondeado Some c = simular_relleno c.
Proof.
  unfold simular_relleno_redondeado, simular_relleno, pasos_max_redondeado,
    pasos_max.
  destruct (rho_saturacion (T c)); cbn [bind]; [|reflexivity].
  destruct (rho_desde_HR (HR0 c) (T c)); cbn [bind]; [|reflexivity].
  destruct (rho_desde_HR (HR_out c) (T c)); cbn [bind]; [|reflexivity].
  destruct (truediv (tiempo_max c) (dt c)); reflexivity.
Qed.

Lemma simular_relleno_redondeado_traza (fl : R -> option R) (c : Config)
  (s : Salida) :
  simular_relleno_redondeado fl c = Ok s ->
  let rs := rho_sat_de (T c) in
  let ro := HR_out c / 100 * rs in
  let obj := rho_objetivo_de c rs in
  let rho0 := HR0 c / 100 * rs in
  exists (q' : R) (news : list R),
    fl (tiempo_max c / dt c) = Some q'
    /\ (length news <= Z.to_nat (Int_part q'))%nat
    /\ r_rhos s = rho0 :: news
    /\ r_tiempos s =
       0 :: map (fun j => INR (j + 1) * dt c) (seq 0 (length news))
    /\ cadena (siguiente_rho c rs ro) rho0 news
    /\ r_masa_in s = INR (length news) * masa_in c
    /\ r_masa_cond s = acumulado (condensado_paso c rs ro) rho0 news
    /\ r_rho_sat s = rs
    /\ (r_t_obj s = None ->
        length news = Z.to_nat (Int_part q')
        /\ Forall (fun r => r < obj) news)
    /\ (forall t, r_t_obj s = Some t ->
        exists pre y,
          news = pre ++ [y] /\ Forall (fun r => r < obj) pre
          /\ y >= obj /\ t = INR (length news) * dt c).
Proof.
  intros H.
  destruct (simular_relleno_redondeado_inv fl c s H)
    as (H1 & H2 & H3 & q' & Hq).
  rewrite (simular_relleno_redondeado_eq fl c q') in H by assumption.
  apply bucle_traza in H. cbn [estado_inicial rho_v masa_condensada
    masa_inyectada tiempos rhos app] in H. cbv zeta.
  destruct H as (news & Hlen & Hr & Ht & Hc & Hin & Hcond & Hs & Hn & Hsome).
  exists q', news. repeat split; try easy; try lra.
  - apply Hn; assumption.
  - apply Hn; assumption.
Qed.

Lemma simular_relleno_redondeado_total (fl : R -> option R) (c : Config)
  (q' : R) :
  T c <> -243.12 -> T c <> -273.15 -> dt c <> 0 -> V c <> 0 ->
  fl (tiempo_max c / dt c) = Some q' ->
  exists s, simular_relleno_redondeado fl c = Ok s.
Proof.
  intros H1 H2 H3 H4 Hq.
  rewrite (simular_relleno_redondeado_eq fl c q') by assumption.
  apply bucle_total. assumption.
Qed.

(** ** Bounds of the recorded densities *)

Lemma siguiente_rho_acotado (c : Config) (rho_sat rho_out rho : R) :
  0 <= rho_sat ->
  0 <= siguiente_rho c rho_sat rho_out rho <= rho_sat.
Proof.
  intros Hs. unfold siguiente_rho. cbv zeta.
  destruct (Rgt_dec _ rho_sat) as [H|H]; [lra|].
  split; [apply Rmax_l | lra].
Qed.

Lemma cadena_acotada (c : Config) (rho_sat rho_out : R) (l : list R) :
  0 <= rho_sat ->
  forall x, cadena (siguiente_rho c rho_sat rho_out) x l ->
  Forall (fun rho => 0 <= rho <= rho_sat) l.
Proof.
  intros Hs. induction l as [|y l IH]; intros x Hc; constructor.
  - destruct Hc as [-> _]. apply siguiente_rho_acotado. assumption.
  - destruct Hc as [_ Hc]. apply (IH y). assumption.
Qed.

(** C1.  For every valid configuration the run returns a result, and every
    recorded density, the initial sample included, lies between 0 and the
    saturation density of the configured temperature. *)
Theorem densidad_acotada (c : Config) :
  config_valida c ->
  exists s,
    simular_relleno c = Ok s
    /\ rho_saturacion (T c) = Ok (r_rho_sat s)
    /\ r_rhos s <> []
    /\ Forall (fun rho => 0 <= rho <= r_rho_sat s) (r_rhos s).
Proof.
  intros Hv. destruct (simular_relleno_total c Hv) as [s Hs].
  destruct (valida_admisible c Hv) as (H1 & H2 & H3 & H4 & Hpos).
  exists s. split; [assumption|].
  destruct (simular_relleno_traza c s Hs)
    as (news & _ & Hr & _ & Hc & _ & _ & Hsat & _).
  rewrite Hsat, Hr. split; [apply rho_saturacion_ok; assumption|].
  split; [discriminate|]. constructor.
  - pose proof (v_HR0 c Hv). nra.
  - eapply cadena_acotada; [lra | eassumption].
Qed.

Lemma config_ejemplo_valida : config_valida config_ejemplo.
Proof.
  constructor; unfold temperatura_admisible; cbn; lra.
Qed.

Lemma densidad_acotada_witness :
  exists s,
    simular_relleno config_ejemplo = Ok s
    /\ rho_saturacion (T config_ejemplo) = Ok (r_rho_sat s)
    /\ r_rhos s <> []
    /\ Forall (fun rho => 0 <= rho <= r_rho_sat s) (r_rhos s).
Proof.
  apply (densidad_acotada config_ejemplo). exact config_ejemplo_valida.
Defined.

(** ** Evaluating a run on concrete numbers *)

Lemma Rge_dec_si (A : Type) (x y : R) (a b : A) :
  x >= y -> (if Rge_dec x y then a else b) = a.
Proof. intros H. destruct (Rge_dec x y); [reflexivity | contradiction]. Qed.

Lemma Rge_dec_no (A : Type) (x y : R) (a b : A) :
  x < y -> (if Rge_dec x y then a else b) = b.
Proof. intros H. destruct (Rge_dec x y); [lra | reflexivity]. Qed.

Lemma Int_part_entre (q : R) (z : Z) :
  IZR z <= q < IZR z + 1 -> Int_part q = z.
Proof. intros H. symmetry. apply Int_part_spec. lra. Qed.

(** Saturation density at 0 degrees Celsius, where the exponential is 1. *)
Lemma rho_sat_de_0 : rho_sat_de 0 = 1324.4704 / 273.15.
Proof.
  unfold rho_sat_de. replace (17.62 * 0 / (243.12 + 0)) with 0 by lra.
  rewrite exp_0. lra.
Qed.

(** Unfolds one step at a given density and decides its comparisons. *)
Ltac evaluar_paso :=
  unfold siguiente_rho, exceso_tope, condensado_paso, nueva_masa,
    perdida_cond, perdida_vent, masa_actual, masa_in, rho_objetivo_de;
  cbn [V dotm T HR0 HR_out ACH k_cond modo_cond dt HR_objetivo tiempo_max
       String.eqb Ascii.eqb Bool.eqb];
  cbv zeta;
  try match goal with
      | |- context [String.eqb ?m ?f] => destruct (String.eqb m f)
      end;
  unfold Rmax, Rmin;
  repeat match goal with
         | |- context [Rle_dec ?a ?b] => destruct (Rle_dec a b)
         | |- context [Rgt_dec ?a ?b] => destruct (Rgt_dec a b)
         | H : context [Rle_dec ?a ?b] |- _ => destruct (Rle_dec a b)
         end;
  try lra.

(** ** Mass balance of a step *)

Lemma cadena_nth (f : R -> R) (l : list R) :
  forall (x : R) (i : nat) (a b : R),
  cadena f x l ->
  nth_error (x :: l) i = Some a -> nth_error (x :: l) (S i) = Some b ->
  b = f a.
Proof.
  induction l as [|y l IH]; intros x i a b Hc Ha Hb.
  - destruct i; cbn in Hb; [discriminate|]. destruct i; discriminate.
  - destruct Hc as [-> Hc]. destruct i as [|i].
    + cbn in Ha, Hb. congruence.
    + apply (IH _ i a b Hc); assumption.
Qed.

(** The run is the same in either condensation mode: the enclosure starts
    dry, so no condensation loss is computed. *)
Lemma corrida_un_paso_modo (m : string) :
  simular_relleno (con_modo config_un_paso m) = Ok salida_un_paso.
Proof.
  rewrite simular_relleno_eq by (cbn; lra).
  unfold pasos_de. cbn [T HR0 HR_out tiempo_max dt config_un_paso con_modo].
  rewrite rho_sat_de_0, (Int_part_entre _ 1) by lra.
  change (Z.to_nat 1) with 1%nat.
  rewrite bucle_S by (cbn; lra). cbv zeta.
  cbn [estado_inicial rho_v masa_condensada masa_inyectada tiempos rhos
       app bucle].
  assert (E : siguiente_rho (con_modo config_un_paso m) (1324.4704 / 273.15)
                (0 / 100 * (1324.4704 / 273.15))
                (0 / 100 * (1324.4704 / 273.15)) = 0.825)
    by (unfold con_modo, config_un_paso; evaluar_paso).
  rewrite E, Rge_dec_no
    by (unfold con_modo, config_un_paso; evaluar_paso).
  unfold salida_de, salida_un_paso. cbn.
  f_equal. f_equal; try (repeat f_equal; lra).
  - unfold con_modo, config_un_paso; evaluar_paso.
  - unfold con_modo, config_un_paso; evaluar_paso.
Qed.

Lemma corrida_un_paso : simular_relleno config_un_paso = Ok salida_un_paso.
Proof. exact (corrida_un_paso_modo "fijo"). Qed.

(** C2.  Between any two consecutive recorded densities [rho], [rho'] of a
    run, the mass before clamping is the mass at the start of the step
    plus the injected mass minus the ventilation and condensation losses;
    in mode 'fijo' the condensation loss is
    [min (k_cond * dt) (max 0 current_mass)]; the new density is
    [max 0 (new_mass / V)], recorded after the saturation clamp. *)
Theorem balance_de_masa (c : Config) (s : Salida) (i : nat) (rho rho' : R) :
  simular_relleno c = Ok s ->
  nth_error (r_rhos s) i = Some rho ->
  nth_error (r_rhos s) (S i) = Some rho' ->
  let rho_sat := r_rho_sat s in
  let rho_out := HR_out c / 100 * rho_sat in
  let injected_mass := dotm c * dt c in
  let current_mass := rho * V c in
  let ventilation_loss := (ACH c * V c / 60) * (rho - rho_out) * dt c in
  exists condensation_loss new_mass new_density : R,
    new_mass =
      current_mass + injected_mass - ventilation_loss - condensation_loss
    /\ new_mass - current_mass =
       injected_mass - ventilation_loss - condensation_loss
    /\ condensation_loss = perdida_cond c rho_sat rho
    /\ (modo_cond c = "fijo"%string ->
        condensation_loss = Rmin (k_cond c * dt c) (Rmax 0 current_mass))
    /\ new_density = Rmax 0 (new_mass / V c)
    /\ rho' = (if Rgt_dec new_density rho_sat then rho_sat else new_density).
Proof.
  intros Hs Hi HSi.
  destruct (simular_relleno_traza c s Hs)
    as (news & _ & Hr & _ & Hc & _ & _ & Hsat & _).
  rewrite Hr in Hi, HSi. rewrite Hsat. cbv zeta.
  pose proof (cadena_nth _ _ _ _ _ _ Hc Hi HSi) as E.
  exists (perdida_cond c (rho_sat_de (T c)) rho).
  exists (nueva_masa c (rho_sat_de (T c))
            (HR_out c / 100 * rho_sat_de (T c)) rho).
  eexists. split; [|split; [|split; [reflexivity|split; [|split;
    [reflexivity|]]]]].
  - unfold nueva_masa, masa_actual, masa_in, perdida_vent. reflexivity.
  - unfold nueva_masa, masa_actual, masa_in, perdida_vent. cbv zeta. lra.
  - intros Hm. unfold perdida_cond, masa_actual. rewrite Hm. reflexivity.
  - exact E.
Qed.

Lemma balance_de_masa_witness :
  exists condensation_loss new_mass new_density : R,
    new_mass = 0 * 0.2 + 3.3 * 0.05
               - (10 * 0.2 / 60) * (0 - 0 / 100 * (1324.4704 / 273.15)) * 0.05
               - condensation_loss
    /\ new_mass - 0 * 0.2 =
       3.3 * 0.05
       - (10 * 0.2 / 60) * (0 - 0 / 100 * (1324.4704 / 273.15)) * 0.05
       - condensation_loss
    /\ condensation_loss
       = perdida_cond config_un_paso (1324.4704 / 273.15) 0
    /\ (modo_cond config_un_paso = "fijo"%string ->
        condensation_loss = Rmin (0.55 * 0.05) (Rmax 0 (0 * 0.2)))
    /\ new_density = Rmax 0 (new_mass / 0.2)
    /\ 0.825 = (if Rgt_dec new_density (1324.4704 / 273.15)
                then 1324.4704 / 273.15 else new_density).
Proof.
  exact (balance_de_masa config_un_paso salida_un_paso 0 0 0.825
           corrida_un_paso eq_refl eq_refl).
Defined.

(** ** Condensation in the proportional mode *)

Lemma perdida_cond_proporcional (c : Config) (rho_sat rho : R) :
  modo_cond c <> "fijo"%string ->
  perdida_cond c rho_sat rho
  = Rmax 0 (rho - rho_sat) * V c * k_cond c * dt c.
Proof.
  intros Hm. unfold perdida_cond.
  apply String.eqb_neq in Hm. rewrite Hm. reflexivity.
Qed.

Lemma acumulado_ext (g h : R -> R) (P : R -> Prop) (l : list R) :
  (forall r, P r -> g r = h r) ->
  forall x, Forall P (removelast (x :: l)) ->
  acumulado g x l = acumulado h x l.
Proof.
  intros Hgh. induction l as [|y l IH]; intros x HP; [reflexivity|].
  change (removelast (x :: y :: l)) with (x :: removelast (y :: l)) in HP.
  inversion HP as [|? ? Hx Hl]; subst. cbn [acumulado].
  rewrite (Hgh x Hx), (IH y Hl). reflexivity.
Qed.

Lemma acumulado_cero (g : R -> R) (l : list R) :
  forall x, (forall r, In r (removelast (x :: l)) -> g r = 0) ->
  acumulado g x l = 0.
Proof.
  induction l as [|y l IH]; intros x H0; [reflexivity|].
  change (removelast (x :: y :: l)) with (x :: removelast (y :: l)) in H0.
  cbn [acumulado]. rewrite (H0 x (or_introl eq_refl)), IH; [lra|].
  intros r Hr. apply H0. right. assumption.
Qed.

(** C3.  In every mode other than 'fijo' the condensation loss of a step
    is [max 0 (rho - rho_sat) * V * k_cond * dt] at the density [rho] the
    step starts from, and the condensed total of a run is the sum over
    its steps of that loss and of the clamp excess.  Hence, when every
    density a step starts from is strictly below saturation, the
    condensed total is exactly the clamp-induced part, and it is 0 when
    moreover the clamp never fires. *)
Theorem condensacion_proporcional (c : Config) (s : Salida) :
  simular_relleno c = Ok s ->
  modo_cond c <> "fijo"%string ->
  let rs := r_rho_sat s in
  let ro := HR_out c / 100 * rs in
  let inicio := removelast (r_rhos s) in
  (forall rho,
     perdida_cond c rs rho = Rmax 0 (rho - rs) * V c * k_cond c * dt c)
  /\ r_masa_cond s =
     acumulado
       (fun rho => exceso_tope c rs ro rho
                   + Rmax 0 (rho - rs) * V c * k_cond c * dt c)
       (hd 0 (r_rhos s)) (tl (r_rhos s))
  /\ (Forall (fun rho => rho < rs) inicio ->
      r_masa_cond s =
      acumulado (exceso_tope c rs ro) (hd 0 (r_rhos s)) (tl (r_rhos s)))
  /\ (Forall (fun rho => rho < rs) inicio ->
      (forall rho, In rho inicio -> exceso_tope c rs ro rho = 0) ->
      r_masa_cond s = 0).
Proof.
  intros Hs Hm.
  destruct (simular_relleno_traza c s Hs)
    as (news & _ & Hr & _ & _ & _ & Hcond & Hsat & _).
  rewrite Hsat, Hr, Hcond. cbv zeta. cbn [hd tl].
  set (rs := rho_sat_de (T c)). set (ro := HR_out c / 100 * rs).
  set (rho0 := HR0 c / 100 * rs).
  assert (Hbajo : Forall (fun rho => rho < rs) (removelast (rho0 :: news)) ->
                  acumulado (condensado_paso c rs ro) rho0 news
                  = acumulado (exceso_tope c rs ro) rho0 news).
  { intros Hb. apply (acumulado_ext _ _ (fun rho => rho < rs)); [|exact Hb].
    intros r Hlt. unfold condensado_paso.
    rewrite perdida_cond_proporcional by assumption.
    rewrite Rmax_left by lra. lra. }
  split; [|split; [|split]].
  - intros rho. apply perdida_cond_proporcional. assumption.
  - apply (acumulado_ext _ _ (fun _ => True)).
    + intros r _. unfold condensado_paso.
      rewrite perdida_cond_proporcional by assumption. reflexivity.
    + apply Forall_forall. easy.
  - exact Hbajo.
  - intros Hb H0. rewrite (Hbajo Hb). apply acumulado_cero. exact H0.
Qed.

Lemma condensacion_proporcional_witness :
  let c := con_modo config_un_paso "proporcional" in
  let rs := 1324.4704 / 273.15 in
  let ro := 0 / 100 * rs in
  Forall (fun rho => rho < rs) [0]
  /\ (forall rho,
        perdida_cond c rs rho = Rmax 0 (rho - rs) * 0.2 * 0.55 * 0.05)
  /\ 0 = acumulado
           (fun rho => exceso_tope c rs ro rho
                       + Rmax 0 (rho - rs) * 0.2 * 0.55 * 0.05) 0 [0.825]
  /\ (Forall (fun rho => rho < rs) [0] ->
      0 = acumulado (exceso_tope c rs ro) 0 [0.825])
  /\ (Forall (fun rho => rho < rs) [0] ->
      (forall rho, In rho [0] -> exceso_tope c rs ro rho = 0) ->
      0 = 0).
Proof.
  cbv zeta. split.
  - repeat constructor. lra.
  - apply (condensacion_proporcional
             (con_modo config_un_paso "proporcional") salida_un_paso).
    + exact (corrida_un_paso_modo "proporcional").
    + discriminate.
Defined.

(** ** Arrival at the target *)

(** A reported arrival time is the time of some step, never that of the
    initial sample. *)
Lemma tiempo_objetivo_no_nulo (c : Config) (s : Salida) (t : R) :
  simular_relleno c = Ok s -> r_t_obj s = Some t ->
  exists k : nat, (1 <= k <= pasos_de c)%nat /\ t = INR k * dt c /\ t <> 0.
Proof.
  intros Hs Ht. destruct (simular_relleno_inv c s Hs) as (_ & _ & Hdt).
  destruct (simular_relleno_traza c s Hs)
    as (news & Hlen & _ & _ & _ & _ & _ & _ & _ & Hsome).
  destruct (Hsome t Ht) as (pre & y & E & _ & _ & ->).
  assert (Hk : (1 <= length news)%nat)
    by (rewrite E, length_app; cbn; lia).
  exists (length news). repeat split; try lia.
  apply Rmult_integral_contrapositive_currified; [|assumption].
  apply not_0_INR. lia.
Qed.

(** When the first step already meets the target, the run stops there. *)
Lemma llegada_en_el_primer_paso (c : Config) :
  T c <> -243.12 -> T c <> -273.15 -> dt c <> 0 -> V c <> 0 ->
  (1 <= pasos_de c)%nat ->
  let rs := rho_sat_de (T c) in
  siguiente_rho c rs (HR_out c / 100 * rs) (HR0 c / 100 * rs)
    >= rho_objetivo_de c rs ->
  exists s, simular_relleno c = Ok s /\ r_t_obj s = Some (dt c)
            /\ length (r_rhos s) = 2%nat.
Proof.
  intros H1 H2 Hdt HV Hn rs Hy.
  rewrite simular_relleno_eq by assumption. fold rs.
  destruct (pasos_de c) as [|n]; [lia|].
  rewrite bucle_S by assumption. cbv zeta.
  cbn [estado_inicial rho_v]. rewrite Rge_dec_si by exact Hy.
  eexists. split; [reflexivity|]. cbn. split; [|reflexivity].
  f_equal. lra.
Qed.

(** C4.  With the target humidity equal to the initial one, so that the
    initial sample already meets the target, the run performs a step and
    reports the time of that step, 0.01 min, not 0. *)
Theorem objetivo_inicial_no_da_cero :
  HR_objetivo config_objetivo_inicial <= HR0 config_objetivo_inicial
  /\ exists s,
       simular_relleno config_objetivo_inicial = Ok s
       /\ hd 0 (r_rhos s)
          >= rho_objetivo_de config_objetivo_inicial (r_rho_sat s)
       /\ r_t_obj s = Some 0.01
       /\ r_t_obj s <> Some 0.
Proof.
  split; [cbn; lra|].
  destruct (llegada_en_el_primer_paso config_objetivo_inicial)
    as (s & Hs & Ht & _); try (cbn; lra).
  - unfold pasos_de. cbn [tiempo_max dt config_objetivo_inicial].
    rewrite (Int_part_entre _ 6000) by lra. lia.
  - cbn [T HR0 HR_out config_objetivo_inicial]. rewrite rho_sat_de_0.
    unfold config_objetivo_inicial. evaluar_paso.
  - exists s. split; [assumption|].
    destruct (simular_relleno_traza _ s Hs)
      as (news & _ & Hr & _ & _ & _ & _ & Hsat & _).
    rewrite Hr, Hsat, Ht. cbn [hd]. unfold rho_objetivo_de.
    cbn [T HR0 HR_objetivo dt config_objetivo_inicial].
    split; [lra|]. split; [reflexivity|].
    intros [= E]. lra.
Qed.

(** ** Configurations that are not valid *)

Lemma corrida_volumen_negativo :
  simular_relleno config_volumen_negativo = Ok salida_volumen_negativo.
Proof.
  rewrite simular_relleno_eq by (cbn; lra).
  unfold pasos_de. cbn [T HR0 HR_out tiempo_max dt config_volumen_negativo].
  rewrite rho_sat_de_0, (Int_part_entre _ 1) by lra.
  change (Z.to_nat 1) with 1%nat.
  rewrite bucle_S by (cbn; lra). cbv zeta.
  cbn [estado_inicial rho_v masa_condensada masa_inyectada tiempos rhos
       app bucle].
  assert (E : siguiente_rho config_volumen_negativo (1324.4704 / 273.15)
                (0 / 100 * (1324.4704 / 273.15))
                (0 / 100 * (1324.4704 / 273.15)) = 0)
    by (unfold config_volumen_negativo; evaluar_paso).
  rewrite E, Rge_dec_no
    by (unfold config_volumen_negativo; evaluar_paso).
  unfold salida_de, salida_volumen_negativo. cbn.
  f_equal. f_equal; try (repeat f_equal; lra).
  - unfold config_volumen_negativo; evaluar_paso.
  - unfold config_volumen_negativo; evaluar_paso.
Qed.

(** C5, as stated, fails for each kind of invalid configuration it
    lists.  An unrecognized mode, an initial humidity of 150 % and a
    negative volume are accepted: the run takes its step and returns.  A
    negative time step is accepted and returns the initial sample.  A
    volume of zero is not rejected before the loop: the step count is
    computed and the first iteration raises the division fault. *)
Lemma invalidas_no_rechazadas :
  (config_invalida (con_modo config_un_paso "vapor")
   /\ simular_relleno (con_modo config_un_paso "vapor") = Ok salida_un_paso)
  /\ (config_invalida config_HR_fuera
      /\ exists s,
           simular_relleno config_HR_fuera = Ok s
           /\ r_t_obj s = Some 0.05 /\ length (r_rhos s) = 2%nat)
  /\ (config_invalida config_volumen_negativo
      /\ simular_relleno config_volumen_negativo
         = Ok salida_volumen_negativo)
  /\ (config_invalida config_paso_negativo
      /\ exists s,
           simular_relleno config_paso_negativo = Ok s
           /\ r_t_obj s = None /\ length (r_rhos s) = 1%nat)
  /\ (config_invalida config_volumen_cero
      /\ (exists n, pasos_max config_volumen_cero = Ok n)
      /\ (forall rs ro i e,
            paso config_volumen_cero rs ro i e = Raise ZeroDivisionError)
      /\ simular_relleno config_volumen_cero = Raise ZeroDivisionError).
Proof.
  split; [|split; [|split; [|split]]].
  - split; [|exact (corrida_un_paso_modo "vapor")].
    unfold config_invalida. do 4 right. cbn. split; discriminate.
  - split.
    { unfold config_invalida. do 2 right. left. cbn. lra. }
    destruct (llegada_en_el_primer_paso config_HR_fuera)
      as (s & Hs & Ht & Hl); try (cbn; lra).
    + unfold pasos_de. cbn [tiempo_max dt config_HR_fuera].
      rewrite (Int_part_entre _ 1) by lra. cbn. lia.
    + cbn [T HR0 HR_out config_HR_fuera]. rewrite rho_sat_de_0.
      unfold config_HR_fuera. evaluar_paso.
    + exists s. repeat split; assumption.
  - split; [|exact corrida_volumen_negativo].
    unfold config_invalida. left. cbn. lra.
  - split.
    { unfold config_invalida. right. left. cbn. lra. }
    rewrite simular_relleno_eq by (cbn; lra).
    unfold pasos_de. cbn [tiempo_max dt config_paso_negativo].
    rewrite (Int_part_entre _ (-1)) by lra.
    change (Z.to_nat (-1)) with 0%nat.
    eexists. split; [reflexivity|]. split; reflexivity.
  - split.
    { unfold config_invalida. left. cbn. lra. }
    split; [eexists; apply pasos_max_ok; cbn; lra|].
    split; [intros; apply paso_volumen_cero; reflexivity|].
    rewrite simular_relleno_eq by (cbn; lra).
    unfold pasos_de. cbn [tiempo_max dt config_volumen_cero].
    rewrite (Int_part_entre _ 1) by lra. change (Z.to_nat 1) with 1%nat.
    apply bucle_S_volumen_cero. reflexivity.
Qed.

Lemma al_menos_un_paso (q' : R) :
  1 <= q' -> exists n, Z.to_nat (Int_part q') = S n.
Proof.
  intros Hq. destruct (base_Int_part q') as [_ Hb].
  assert (Hz : (0 < Int_part q')%Z) by (apply lt_IZR; lra).
  exists (Z.to_nat (Int_part q' - 1)). lia.
Qed.

Lemma ningun_paso (q' : R) : q' < 1 -> Z.to_nat (Int_part q') = 0%nat.
Proof.
  intros Hq. destruct (base_Int_part q') as [Hb _].
  assert (Hz : (Int_part q' < 1)%Z) by (apply lt_IZR; lra).
  lia.
Qed.

(** C5, amended.  Nothing validates a configuration.  At atmospheric
    temperatures, and whatever double the quotient [tiempo_max / dt]
    rounds to: a time step of zero fails before any stepping, with the
    [ZeroDivisionError] of the step count; a volume of zero is not
    rejected before the loop and raises [ZeroDivisionError] inside its
    first iteration, when one is scheduled; every other configuration
    with a finite quotient, whatever the signs of volume and time step,
    the relative humidities and the mode string, returns a result. *)
Theorem sin_validacion (fl : R -> option R) (c : Config) :
  temperatura_atmosferica (T c) ->
  (dt c = 0 ->
   pasos_max_redondeado fl c = Raise ZeroDivisionError
   /\ simular_relleno_redondeado fl c = Raise ZeroDivisionError)
  /\ (forall q', dt c <> 0 -> fl (tiempo_max c / dt c) = Some q' ->
      V c = 0 -> 1 <= q' ->
      pasos_max_redondeado fl c = Ok (int q')
      /\ (forall rs ro i e, paso c rs ro i e = Raise ZeroDivisionError)
      /\ simular_relleno_redondeado fl c = Raise ZeroDivisionError)
  /\ (forall q', dt c <> 0 -> fl (tiempo_max c / dt c) = Some q' ->
      V c <> 0 \/ q' < 1 ->
      exists s, simular_relleno_redondeado fl c = Ok s).
Proof.
  intros HT. destruct (atmosferica_admisible _ HT) as (H1 & H2 & _).
  split; [|split].
  - intros Hdt.
    assert (Hp : pasos_max_redondeado fl c = Raise ZeroDivisionError)
      by (unfold pasos_max_redondeado; rewrite Hdt, truediv_cero;
          reflexivity).
    split; [exact Hp|]. unfold simular_relleno_redondeado.
    rewrite rho_saturacion_ok, !rho_desde_HR_ok, Hp by assumption.
    reflexivity.
  - intros q' Hdt Hq HV Hq1. split; [|split].
    + unfold pasos_max_redondeado. rewrite truediv_ok by assumption.
      cbn [bind]. rewrite Hq. reflexivity.
    + intros rs ro i e. apply paso_volumen_cero. assumption.
    + rewrite (simular_relleno_redondeado_eq fl c q') by assumption.
      destruct (al_menos_un_paso q' Hq1) as [n ->].
      apply bucle_S_volumen_cero. assumption.
  - intros q' Hdt Hq [HV|Hq1].
    + apply (simular_relleno_redondeado_total fl c q'); assumption.
    + rewrite (simular_relleno_redondeado_eq fl c q') by assumption.
      rewrite (ningun_paso q' Hq1). eexists. reflexivity.
Qed.

Lemma sin_validacion_witness :
  (pasos_max_redondeado Some config_paso_cero = Raise ZeroDivisionError
   /\ simular_relleno_redondeado Some config_paso_cero
      = Raise ZeroDivisionError)
  /\ (pasos_max_redondeado Some config_volumen_cero = Ok (int (0.05 / 0.05))
      /\ (forall rs ro i e,
            paso config_volumen_cero rs ro i e = Raise ZeroDivisionError)
      /\ simular_relleno_redondeado Some config_volumen_cero
         = Raise ZeroDivisionError)
  /\ (exists s,
        simular_relleno_redondeado Some (con_modo config_un_paso "vapor")
        = Ok s)
  /\ (exists s,
        simular_relleno_redondeado Some config_volumen_negativo = Ok s)
  /\ (exists s, simular_relleno_redondeado Some config_HR_fuera = Ok s)
  /\ (exists s, simular_relleno_redondeado Some config_paso_negativo = Ok s).
Proof.
  assert (Ha : temperatura_atmosferica 0)
    by (unfold temperatura_atmosferica; lra).
  split; [|split; [|split; [|split; [|split]]]].
  - apply (sin_validacion Some config_paso_cero Ha). reflexivity.
  - apply (proj1 (proj2 (sin_validacion Some config_volumen_cero Ha))
             (0.05 / 0.05)); cbn; try reflexivity; lra.
  - apply (proj2 (proj2 (sin_validacion Some
             (con_modo config_un_paso "vapor") Ha)) (0.05 / 0.05));
      cbn; try reflexivity; lra.
  - apply (proj2 (proj2 (sin_validacion Some config_volumen_negativo Ha))
             (0.05 / 0.05)); cbn; try reflexivity; lra.
  - apply (proj2 (proj2 (sin_validacion Some config_HR_fuera Ha))
             (0.05 / 0.05)); cbn; try reflexivity; lra.
  - apply (proj2 (proj2 (sin_validacion Some config_paso_negativo Ha))
             (0.05 / -0.05)); cbn; try reflexivity; lra.
Defined.

(** ** Runs without injection *)

Lemma perdida_cond_no_negativa (c : Config) (rho_sat rho : R) :
  0 <= V c -> 0 <= k_cond c -> 0 <= dt c ->
  0 <= perdida_cond c rho_sat rho.
Proof.
  intros HV Hk Hdt. unfold perdida_cond.
  destruct (String.eqb (modo_cond c) "fijo").
  - apply Rmin_glb; [nra | apply Rmax_l].
  - cbv zeta. pose proof (Rmax_l 0 (rho - rho_sat)) as Hm.
    repeat apply Rmult_le_pos; assumption.
Qed.

(** C6, as stated, fails: without injection and with a positive
    condensation coefficient, ventilation from a more humid exterior
    raises the density from 0 to 20 % of saturation in one step, above
    the 10 % target, which is reported reached at 0.5 min. *)
Lemma ventilacion_alcanza_objetivo :
  config_valida config_exterior_humedo
  /\ dotm config_exterior_humedo = 0
  /\ 0 < k_cond config_exterior_humedo
  /\ exists s,
       simular_relleno config_exterior_humedo = Ok s
       /\ rho_objetivo_de config_exterior_humedo (r_rho_sat s)
          > hd 0 (r_rhos s)
       /\ r_t_obj s = Some 0.5
       /\ r_t_obj s <> None.
Proof.
  assert (Hv : config_valida config_exterior_humedo)
    by (constructor; unfold temperatura_admisible; cbn; lra).
  split; [exact Hv|]. split; [reflexivity|]. split; [cbn; lra|].
  pose proof (rho_sat_de_pos 20 (v_T _ Hv)) as Hpos.
  destruct (llegada_en_el_primer_paso config_exterior_humedo)
    as (s & Hs & Ht & _); try (cbn; lra).
  - unfold pasos_de. cbn [tiempo_max dt config_exterior_humedo].
    rewrite (Int_part_entre _ 120) by lra. lia.
  - cbn [T HR0 HR_out config_exterior_humedo].
    set (rs := rho_sat_de 20) in *.
    unfold config_exterior_humedo. evaluar_paso.
  - exists s. split; [assumption|].
    destruct (simular_relleno_traza _ s Hs)
      as (news & _ & Hr & _ & _ & _ & _ & Hsat & _).
    rewrite Hr, Hsat, Ht. cbn [hd]. unfold rho_objetivo_de.
    cbn [T HR0 HR_objetivo dt config_exterior_humedo].
    split; [lra|]. split; [reflexivity | discriminate].
Qed.

(** The bound [ACH * dt <= 60] of the amended claim is needed as well:
    with a drier exterior (40 %) than the enclosure (50 %) a step that
    replaces three volumes of air overshoots to 20 % and the next one to
    80 %, above a 60 % target that exceeds both. *)
Lemma sobrepaso_alcanza_objetivo :
  config_valida config_sobrepaso
  /\ dotm config_sobrepaso = 0
  /\ exists s,
       simular_relleno config_sobrepaso = Ok s
       /\ r_rhos s = [50 / 100 * rho_sat_de 20; 20 / 100 * rho_sat_de 20;
                      80 / 100 * rho_sat_de 20]
       /\ rho_objetivo_de config_sobrepaso (rho_sat_de 20)
          = 60 / 100 * rho_sat_de 20
       /\ r_t_obj s = Some 6.
Proof.
  assert (Hv : config_valida config_sobrepaso)
    by (constructor; unfold temperatura_admisible; cbn; lra).
  split; [exact Hv|]. split; [reflexivity|].
  pose proof (rho_sat_de_pos 20 (v_T _ Hv)) as Hpos.
  rewrite simular_relleno_eq by (cbn; lra).
  unfold pasos_de. cbn [T HR0 HR_out tiempo_max dt config_sobrepaso].
  rewrite (Int_part_entre _ 20) by lra.
  change (Z.to_nat 20) with (S (S 18)).
  set (rs := rho_sat_de 20) in *.
  assert (E1 : siguiente_rho config_sobrepaso rs (40 / 100 * rs)
                 (50 / 100 * rs) = 20 / 100 * rs)
    by (unfold config_sobrepaso; evaluar_paso).
  assert (E2 : siguiente_rho config_sobrepaso rs (40 / 100 * rs)
                 (20 / 100 * rs) = 80 / 100 * rs)
    by (unfold config_sobrepaso; evaluar_paso).
  rewrite bucle_S by (cbn; lra). cbv zeta.
  cbn [estado_inicial rho_v masa_condensada masa_inyectada tiempos rhos].
  rewrite E1, Rge_dec_no by (unfold config_sobrepaso; evaluar_paso).
  rewrite bucle_S by (cbn; lra). cbv zeta.
  cbn [rho_v masa_condensada masa_inyectada tiempos rhos].
  rewrite E2, Rge_dec_si by (unfold config_sobrepaso; evaluar_paso).
  eexists. split; [reflexivity|]. cbn [salida_de r_rhos r_t_obj rhos app].
  split; [reflexivity|]. split; [reflexivity|].
  apply f_equal. cbn. lra.
Qed.

(** Without injection a step cannot take the density above a level [M]
    that bounds both the density it starts from and the exterior one,
    provided ventilation replaces at most the whole volume in one step. *)
Lemma siguiente_rho_sin_inyeccion (c : Config) (rho_sat rho_out rho M : R) :
  0 < V c -> 0 <= k_cond c -> 0 < dt c -> 0 <= ACH c ->
  dotm c = 0 -> ACH c * dt c <= 60 ->
  0 <= M -> rho <= M -> rho_out <= M ->
  siguiente_rho c rho_sat rho_out rho <= M.
Proof.
  intros HV Hk Hdt HA Hm Hu HM Hx Ho.
  assert (Hq : nueva_masa c rho_sat rho_out rho / V c <= M).
  { pose proof (perdida_cond_no_negativa c rho_sat rho) as Hc.
    apply (Rmult_le_reg_r (V c)); [assumption|].
    unfold Rdiv. rewrite Rmult_assoc, Rinv_l, Rmult_1_r by lra.
    unfold nueva_masa, masa_actual, masa_in, perdida_vent. cbv zeta.
    rewrite Hm.
    set (u := ACH c * dt c / 60).
    assert (Hu0 : 0 <= u <= 1) by (unfold u; split; nra).
    replace (ACH c * V c / 60 * (rho - rho_out) * dt c)
      with (V c * (u * (rho - rho_out))) by (unfold u; field).
    assert (0 <= (1 - u) * (M - rho)) by (apply Rmult_le_pos; lra).
    assert (0 <= u * (M - rho_out)) by (apply Rmult_le_pos; lra).
    assert (Hc' : 0 <= perdida_cond c rho_sat rho) by (apply Hc; lra).
    nra. }
  unfold siguiente_rho. cbv zeta.
  destruct (Rgt_dec _ rho_sat) as [H|H].
  - apply Rle_trans with (Rmax 0 (nueva_masa c rho_sat rho_out rho / V c));
      [lra | apply Rmax_lub; assumption].
  - apply Rmax_lub; assumption.
Qed.

Lemma cadena_sin_inyeccion (c : Config) (rho_sat rho_out M : R) (l : list R) :
  0 < V c -> 0 <= k_cond c -> 0 < dt c -> 0 <= ACH c ->
  dotm c = 0 -> ACH c * dt c <= 60 ->
  0 <= M -> rho_out <= M ->
  forall x, x <= M -> cadena (siguiente_rho c rho_sat rho_out) x l ->
  Forall (fun r => r <= M) l.
Proof.
  intros HV Hk Hdt HA Hm Hu HM Ho.
  induction l as [|y l IH]; intros x Hx Hc; constructor.
  - destruct Hc as [-> _]. apply siguiente_rho_sin_inyeccion; assumption.
  - destruct Hc as [-> Hc]. apply (IH _ (siguiente_rho_sin_inyeccion
      c rho_sat rho_out x M HV Hk Hdt HA Hm Hu HM Hx Ho) Hc).
Qed.

(** C6, amended.  For every valid configuration at an atmospheric
    temperature, without injection, in which ventilation replaces at
    most the whole volume per step ([ACH * dt <= 60]) and whose target
    humidity is at least one percentage point above both the initial and
    the exterior humidity, the target is never reached: whatever double
    the quotient [tiempo_max / dt] rounds to, every run that returns
    reports no arrival time and only densities below the target, and
    with a finite quotient the run returns after all of its steps. *)
Theorem sin_inyeccion_no_alcanza (fl : R -> option R) (c : Config) :
  config_valida c ->
  temperatura_atmosferica (T c) ->
  dotm c = 0 ->
  ACH c * dt c <= 60 ->
  HR0 c + 1 <= HR_objetivo c ->
  HR_out c + 1 <= HR_objetivo c ->
  (forall s,
     simular_relleno_redondeado fl c = Ok s ->
     r_t_obj s = None
     /\ Forall (fun r => r < rho_objetivo_de c (r_rho_sat s)) (r_rhos s))
  /\ (forall q',
        fl (tiempo_max c / dt c) = Some q' ->
        exists s,
          simular_relleno_redondeado fl c = Ok s
          /\ length (r_rhos s) = S (Z.to_nat (Int_part q'))).
Proof.
  intros Hv HT Hm Hu H0 Hout.
  destruct (atmosferica_admisible _ HT) as (H1 & H2 & Hpos).
  set (rs := rho_sat_de (T c)) in *.
  assert (Hnunca : forall s,
            simular_relleno_redondeado fl c = Ok s ->
            r_t_obj s = None
            /\ Forall (fun r => r < rho_objetivo_de c rs) (r_rhos s)
            /\ r_rho_sat s = rs
            /\ forall q', fl (tiempo_max c / dt c) = Some q' ->
               length (r_rhos s) = S (Z.to_nat (Int_part q'))).
  { intros s Hs.
    destruct (simular_relleno_redondeado_traza fl c s Hs)
      as (q' & news & Hq & _ & Hr & _ & Hc & _ & _ & Hsat & Hnone & Hsome).
    fold rs in Hr, Hc, Hnone, Hsome, Hsat.
    set (M := Rmax (HR0 c / 100 * rs) (HR_out c / 100 * rs)).
    assert (HM : 0 <= M).
    { apply Rle_trans with (HR0 c / 100 * rs); [|apply Rmax_l].
      pose proof (v_HR0 c Hv). nra. }
    assert (HMobj : M < rho_objetivo_de c rs).
    { unfold M, rho_objetivo_de. apply Rmax_lub_lt; nra. }
    assert (Hbajo : Forall (fun r => r <= M) news).
    { apply (cadena_sin_inyeccion c rs (HR_out c / 100 * rs) M news)
        with (x := HR0 c / 100 * rs);
        try (destruct Hv; assumption); try assumption.
      - apply Rmax_r.
      - apply Rmax_l. }
    assert (Hn : r_t_obj s = None).
    { destruct (r_t_obj s) as [t|]; [exfalso | reflexivity].
      destruct (Hsome t eq_refl) as (pre & y & E & _ & Hy & _).
      rewrite Forall_forall in Hbajo.
      assert (y <= M) by (apply Hbajo; rewrite E; apply in_or_app; right;
                          left; reflexivity).
      lra. }
    split; [exact Hn|]. destruct (Hnone Hn) as [Hlen Hlt].
    split; [|split; [exact Hsat|]].
    - rewrite Hr. constructor; [|exact Hlt].
      pose proof (Rmax_l (HR0 c / 100 * rs) (HR_out c / 100 * rs)).
      fold M in H. lra.
    - intros q'' Hq''. rewrite Hr. cbn [length]. congruence. }
  split.
  - intros s Hs. destruct (Hnunca s Hs) as (Hn & HF & Hsat & _).
    rewrite Hsat. split; assumption.
  - intros q' Hq.
    destruct (simular_relleno_redondeado_total fl c q') as [s Hs];
      try assumption; try (destruct Hv; lra).
    exists s. split; [assumption|].
    destruct (Hnunca s Hs) as (_ & _ & _ & Hl). apply Hl. exact Hq.
Qed.

Lemma sin_inyeccion_no_alcanza_witness :
  (forall s,
     simular_relleno_redondeado Some config_sin_inyeccion = Ok s ->
     r_t_obj s = None
     /\ Forall
          (fun r => r < rho_objetivo_de config_sin_inyeccion (r_rho_sat s))
          (r_rhos s))
  /\ (forall q',
        Some (60 / 0.01) = Some q' ->
        exists s,
          simular_relleno_redondeado Some config_sin_inyeccion = Ok s
          /\ length (r_rhos s) = S (Z.to_nat (Int_part q'))).
Proof.
  apply (sin_inyeccion_no_alcanza Some config_sin_inyeccion).
  - constructor; unfold temperatura_admisible; cbn; lra.
  - unfold temperatura_atmosferica. cbn. lra.
  - reflexivity.
  - cbn. lra.
  - cbn. lra.
  - cbn. lra.
Defined.

(** ** Step budget and arrival *)

Lemma tiempos_como_indices (d : R) (k : nat) :
  0 :: map (fun j => INR (j + 1) * d) (seq 0 k)
  = map (fun j => INR j * d) (seq 0 (S k)).
Proof.
  cbn [seq map]. f_equal; [cbn; lra|].
  rewrite <- seq_shift, map_map. apply map_ext.
  intros j. rewrite Nat.add_1_r. reflexivity.
Qed.

Lemma suma_inyectada (m : R) (l : list R) :
  forall a, fold_left (fun acc _ => acc + m) l a = a + INR (length l) * m.
Proof.
  induction l as [|y l IH]; intros a.
  - cbn. ring.
  - cbn [fold_left length]. rewrite IH, S_INR. ring.
Qed.

Lemma suma_condensada (f h : R -> R) (l : list R) :
  forall x a,
  fold_left (fun acc r => acc + f r + h r) (removelast (x :: l)) a
  = a + acumulado (fun r => f r + h r) x l.
Proof.
  induction l as [|y l IH]; intros x a.
  - cbn. ring.
  - change (removelast (x :: y :: l)) with (x :: removelast (y :: l)).
    cbn [fold_left acumulado]. rewrite IH. ring.
Qed.

Lemma corrida_dos_pasos :
  simular_relleno_redondeado fl_tres_decimas config_tres_decimas
  = Ok salida_dos_pasos.
Proof.
  rewrite (simular_relleno_redondeado_eq _ _ 2.9999999999999996)
    by (cbn; try reflexivity; lra).
  cbn [T HR0 HR_out config_tres_decimas].
  rewrite rho_sat_de_0, (Int_part_entre _ 2) by lra.
  change (Z.to_nat 2) with 2%nat.
  assert (E1 : siguiente_rho config_tres_decimas (1324.4704 / 273.15)
                 (0 / 100 * (1324.4704 / 273.15))
                 (0 / 100 * (1324.4704 / 273.15)) = 0.5)
    by (unfold config_tres_decimas; evaluar_paso).
  assert (E2 : siguiente_rho config_tres_decimas (1324.4704 / 273.15)
                 (0 / 100 * (1324.4704 / 273.15)) 0.5 = 1)
    by (unfold config_tres_decimas; evaluar_paso).
  rewrite bucle_S by (cbn; lra). cbv zeta.
  cbn [estado_inicial rho_v masa_condensada masa_inyectada tiempos rhos].
  rewrite E1, Rge_dec_no by (unfold config_tres_decimas; evaluar_paso).
  rewrite bucle_S by (cbn; lra). cbv zeta.
  cbn [rho_v masa_condensada masa_inyectada tiempos rhos].
  rewrite E2, Rge_dec_no by (unfold config_tres_decimas; evaluar_paso).
  cbn [bucle]. unfold salida_de, salida_dos_pasos. cbn.
  f_equal. f_equal; try (repeat f_equal; lra).
  - unfold config_tres_decimas; evaluar_paso.
  - unfold config_tres_decimas; evaluar_paso.
Qed.

(** C7.  The loop is given as many iterations as the floor of the
    quotient [tiempo_max / dt], taken as the double the division
    returns.  An arrival time is reported exactly when some density
    recorded after a step reaches the target; the run then stops at that
    step.  Otherwise every iteration is executed and the result carries
    no arrival time, the complete series of samples and both mass
    totals, each the running sum of the loop. *)
Theorem horizonte_y_objetivo (fl : R -> option R) (c : Config) (s : Salida) :
  simular_relleno_redondeado fl c = Ok s ->
  exists q' : R,
    fl (tiempo_max c / dt c) = Some q'
    /\ pasos_max_redondeado fl c = Ok (int q')
    /\ range (int q') = Z.to_nat (Int_part q')
    /\ IZR (Int_part q') <= q' < IZR (Int_part q') + 1
    /\ let pasos := Z.to_nat (Int_part q') in
       let obj := rho_objetivo_de c (r_rho_sat s) in
       let rho_out := HR_out c / 100 * r_rho_sat s in
       let hechos := (length (r_rhos s) - 1)%nat in
       (hechos <= pasos)%nat
       /\ r_tiempos s = map (fun k => INR k * dt c) (seq 0 (S hechos))
       /\ length (r_rhos s) = S hechos
       /\ r_masa_in s
          = fold_left (fun acc _ => acc + dotm c * dt c) (tl (r_rhos s)) 0
       /\ r_masa_cond s
          = fold_left
              (fun acc rho =>
                 acc + exceso_tope c (r_rho_sat s) rho_out rho
                 + perdida_cond c (r_rho_sat s) rho)
              (removelast (r_rhos s)) 0
       /\ (r_t_obj s = None <-> Forall (fun r => r < obj) (tl (r_rhos s)))
       /\ (r_t_obj s <> None
           <-> Exists (fun r => r >= obj) (tl (r_rhos s)))
       /\ (r_t_obj s = None -> hechos = pasos)
       /\ (forall t, r_t_obj s = Some t ->
           (1 <= hechos)%nat /\ t = INR hechos * dt c
           /\ last (r_rhos s) 0 >= obj
           /\ Forall (fun r => r < obj) (removelast (tl (r_rhos s)))).
Proof.
  intros Hs.
  destruct (simular_relleno_redondeado_inv fl c s Hs) as (_ & _ & Hdt & _).
  destruct (simular_relleno_redondeado_traza fl c s Hs)
    as (q' & news & Hq & Hlen & Hr & Ht & _ & Hin & Hcond & Hsat & Hnone
        & Hsome).
  exists q'. split; [exact Hq|]. split.
  { unfold pasos_max_redondeado. rewrite truediv_ok by assumption.
    cbn [bind]. rewrite Hq. reflexivity. }
  split; [apply int_range|]. split.
  { destruct (base_Int_part q'). lra. }
  rewrite Hsat, Hr. cbn [length tl]. rewrite Nat.sub_succ, Nat.sub_0_r.
  cbv zeta.
  set (obj := rho_objetivo_de c (rho_sat_de (T c))) in *.
  assert (Hiff : r_t_obj s = None <-> Forall (fun r => r < obj) news).
  { split; [intros E; apply Hnone; exact E|].
    intros Hall. destruct (r_t_obj s) as [t|]; [exfalso | reflexivity].
    destruct (Hsome t eq_refl) as (pre & y & E & _ & Hy & _).
    rewrite Forall_forall in Hall.
    assert (y < obj) by (apply Hall; rewrite E; apply in_or_app; right;
                         left; reflexivity).
    lra. }
  repeat match goal with |- _ /\ _ => split end.
  - exact Hlen.
  - rewrite Ht. apply tiempos_como_indices.
  - reflexivity.
  - rewrite Hin, suma_inyectada. unfold masa_in. ring.
  - rewrite Hcond, suma_condensada, Rplus_0_l. reflexivity.
  - apply Hiff.
  - split.
    + intros Hne. destruct (r_t_obj s) as [t|]; [|contradiction].
      destruct (Hsome t eq_refl) as (pre & y & E & _ & Hy & _).
      apply Exists_exists. exists y. split; [|exact Hy].
      rewrite E. apply in_or_app. right. left. reflexivity.
    + intros Hex E. apply Hiff in E. apply Exists_exists in Hex.
      destruct Hex as (y & Hy & Hge). rewrite Forall_forall in E.
      specialize (E y Hy). cbv beta in E. lra.
  - intros E. apply Hnone. exact E.
  - intros t E. destruct (Hsome t E) as (pre & y & -> & Hpre & Hy & ->).
    rewrite length_app. cbn [length].
    split; [lia|]. split; [reflexivity|]. split.
    + change (HR0 c / 100 * rho_sat_de (T c) :: pre ++ [y])
        with ((HR0 c / 100 * rho_sat_de (T c) :: pre) ++ [y]).
      rewrite last_last. exact Hy.
    + rewrite removelast_last. exact Hpre.
Qed.

Lemma horizonte_y_objetivo_witness :
  let fl := fl_tres_decimas in
  let c := config_tres_decimas in
  let s := salida_dos_pasos in
  exists q' : R,
    fl (tiempo_max c / dt c) = Some q'
    /\ pasos_max_redondeado fl c = Ok (int q')
    /\ range (int q') = Z.to_nat (Int_part q')
    /\ IZR (Int_part q') <= q' < IZR (Int_part q') + 1
    /\ let pasos := Z.to_nat (Int_part q') in
       let obj := rho_objetivo_de c (r_rho_sat s) in
       let rho_out := HR_out c / 100 * r_rho_sat s in
       let hechos := (length (r_rhos s) - 1)%nat in
       (hechos <= pasos)%nat
       /\ r_tiempos s = map (fun k => INR k * dt c) (seq 0 (S hechos))
       /\ length (r_rhos s) = S hechos
       /\ r_masa_in s
          = fold_left (fun acc _ => acc + dotm c * dt c) (tl (r_rhos s)) 0
       /\ r_masa_cond s
          = fold_left
              (fun acc rho =>
                 acc + exceso_tope c (r_rho_sat s) rho_out rho
                 + perdida_cond c (r_rho_sat s) rho)
              (removelast (r_rhos s)) 0
       /\ (r_t_obj s = None <-> Forall (fun r => r < obj) (tl (r_rhos s)))
       /\ (r_t_obj s <> None
           <-> Exists (fun r => r >= obj) (tl (r_rhos s)))
       /\ (r_t_obj s = None -> hechos = pasos)
       /\ (forall t, r_t_obj s = Some t ->
           (1 <= hechos)%nat /\ t = INR hechos * dt c
           /\ last (r_rhos s) 0 >= obj
           /\ Forall (fun r => r < obj) (removelast (tl (r_rhos s)))).
Proof.
  exact (horizonte_y_objetivo fl_tres_decimas config_tres_decimas
           salida_dos_pasos corrida_dos_pasos).
Defined.

(** ** Accumulated masses *)

Lemma exceso_tope_no_negativo (c : Config) (rho_sat rho_out rho : R) :
  0 <= V c -> 0 <= exceso_tope c rho_sat rho_out rho.
Proof.
  intros HV. unfold exceso_tope. cbv zeta.
  destruct (Rgt_dec _ rho_sat) as [H|H]; [|lra].
  apply Rmult_le_pos; lra.
Qed.

Lemma acumulado_no_negativo (g : R -> R) (l : list R) :
  (forall r, 0 <= g r) -> forall x, 0 <= acumulado g x l.
Proof.
  intros Hg. induction l as [|y l IH]; intros x; cbn [acumulado]; [lra|].
  specialize (Hg x). specialize (IH y). lra.
Qed.

(** C8.  For every valid configuration each iteration adds to the
    injected total the non-negative mass [dotm * dt], and to the
    condensed total the non-negative clamp excess and the non-negative
    condensation loss; so from any state of the loop to the returned
    totals neither accumulator decreases, and both totals of a run are
    non-negative. *)
Theorem masas_acumuladas_monotonas (c : Config) :
  config_valida c ->
  forall rho_sat rho_out obj : R,
  (forall (i : nat) (e : Estado),
     exists t e',
       paso c rho_sat rho_out i e = Ok (t, e')
       /\ masa_inyectada e' = masa_inyectada e + dotm c * dt c
       /\ masa_condensada e'
          = masa_condensada e + exceso_tope c rho_sat rho_out (rho_v e)
            + perdida_cond c rho_sat (rho_v e)
       /\ 0 <= dotm c * dt c
       /\ 0 <= exceso_tope c rho_sat rho_out (rho_v e)
       /\ 0 <= perdida_cond c rho_sat (rho_v e)
       /\ masa_inyectada e <= masa_inyectada e'
       /\ masa_condensada e <= masa_condensada e')
  /\ (forall (n i : nat) (e : Estado) (s : Salida),
        bucle c rho_sat rho_out obj n i e = Ok s ->
        masa_inyectada e <= r_masa_in s
        /\ masa_condensada e <= r_masa_cond s)
  /\ (forall s, simular_relleno c = Ok s ->
        0 <= r_masa_in s /\ 0 <= r_masa_cond s).
Proof.
  intros Hv rho_sat rho_out obj.
  destruct Hv as [HV Hm _ _ _ _ Hk Hdt _].
  assert (Hin : 0 <= dotm c * dt c) by (apply Rmult_le_pos; lra).
  assert (Hex : forall rs ro r, 0 <= exceso_tope c rs ro r)
    by (intros; apply exceso_tope_no_negativo; lra).
  assert (Hpc : forall rs r, 0 <= perdida_cond c rs r)
    by (intros; apply perdida_cond_no_negativa; lra).
  assert (Hcp : forall rs ro r, 0 <= condensado_paso c rs ro r).
  { intros rs ro r. unfold condensado_paso.
    specialize (Hex rs ro r). specialize (Hpc rs r). lra. }
  split; [|split].
  - intros i e. do 2 eexists. split; [apply paso_ok; lra|].
    cbn [masa_inyectada masa_condensada].
    specialize (Hex rho_sat rho_out (rho_v e)).
    specialize (Hpc rho_sat (rho_v e)). unfold masa_in.
    repeat split; lra.
  - intros n i e s H. apply bucle_traza in H.
    destruct H as (news & _ & _ & _ & _ & Hi & Hc & _).
    rewrite Hi, Hc.
    pose proof (acumulado_no_negativo _ news (Hcp rho_sat rho_out) (rho_v e)).
    pose proof (pos_INR (length news)). unfold masa_in. split; nra.
  - intros s H. destruct (simular_relleno_traza c s H)
      as (news & _ & _ & _ & _ & Hi & Hc & _).
    rewrite Hi, Hc.
    pose proof (pos_INR (length news)). unfold masa_in. split; [nra|].
    apply acumulado_no_negativo. apply Hcp.
Qed.

Lemma masas_acumuladas_monotonas_witness :
  (forall (i : nat) (e : Estado),
     exists t e',
       paso config_ejemplo 17.3 3.46 i e = Ok (t, e')
       /\ masa_inyectada e' = masa_inyectada e + 3.3 * 0.05
       /\ masa_condensada e'
          = masa_condensada e + exceso_tope config_ejemplo 17.3 3.46 (rho_v e)
            + perdida_cond config_ejemplo 17.3 (rho_v e)
       /\ 0 <= 3.3 * 0.05
       /\ 0 <= exceso_tope config_ejemplo 17.3 3.46 (rho_v e)
       /\ 0 <= perdida_cond config_ejemplo 17.3 (rho_v e)
       /\ masa_inyectada e <= masa_inyectada e'
       /\ masa_condensada e <= masa_condensada e')
  /\ (forall (n i : nat) (e : Estado) (s : Salida),
        bucle config_ejemplo 17.3 3.46 17.3 n i e = Ok s ->
        masa_inyectada e <= r_masa_in s
        /\ masa_condensada e <= r_masa_cond s)
  /\ (forall s, simular_relleno config_ejemplo = Ok s ->
        0 <= r_masa_in s /\ 0 <= r_masa_cond s).
Proof.
  exact (masas_acumuladas_monotonas config_ejemplo config_ejemplo_valida
           17.3 3.46 17.3).
Defined.

(** ** Monotonicity of the saturation density *)

Section Magnus.

Variables T1 T2 : R.
Hypothesis HT1 : 0 <= T1.
Hypothesis HT12 : T1 < T2.
Hypothesis HT2 : T2 <= 40.

Lemma magnus_incremento :
  (exponente_magnus T2 - exponente_magnus T1)
  * ((243.12 + T1) * (243.12 + T2))
  = 17.62 * 243.12 * (T2 - T1).
Proof. unfold exponente_magnus. field. lra. Qed.

(** The exponent grows faster than the relative growth of the absolute
    temperature. *)
Lemma magnus_domina :
  T2 - T1 <= (exponente_magnus T2 - exponente_magnus T1) * (T1 + 273.15).
Proof.
  pose proof magnus_incremento as Hd.
  set (d := exponente_magnus T2 - exponente_magnus T1) in *.
  set (P := (243.12 + T1) * (243.12 + T2)) in *.
  assert (HP : 0 < P) by (unfold P; apply Rmult_lt_0_compat; lra).
  assert (HPK : P <= 17.62 * 243.12 * (T1 + 273.15)) by (unfold P; nra).
  apply (Rmult_le_reg_r P); [assumption|].
  replace (d * (T1 + 273.15) * P) with (d * P * (T1 + 273.15)) by ring.
  rewrite Hd. nra.
Qed.

Lemma rho_sat_de_creciente : rho_sat_de T1 < rho_sat_de T2.
Proof.
  pose proof magnus_domina as Hdom.
  pose proof magnus_incremento as Hd.
  unfold rho_sat_de.
  fold (exponente_magnus T1) (exponente_magnus T2).
  set (g1 := exponente_magnus T1) in *.
  set (g2 := exponente_magnus T2) in *.
  assert (Hpos : 0 < g2 - g1).
  { assert (0 < (g2 - g1) * ((243.12 + T1) * (243.12 + T2)))
      by (rewrite Hd; nra).
    assert (0 < (243.12 + T1) * (243.12 + T2))
      by (apply Rmult_lt_0_compat; lra).
    nra. }
  assert (Hexp : 1 + (g2 - g1) < exp (g2 - g1)) by (apply exp_ineq1; lra).
  assert (E : exp g2 = exp g1 * exp (g2 - g1)).
  { rewrite <- exp_plus. f_equal. lra. }
  rewrite E. pose proof (exp_pos g1) as H1.
  set (E1 := exp g1) in *. set (X := exp (g2 - g1)) in *.
  apply Rlt_0_minus.
  replace (216.7 * (6.112 * (E1 * X)) / (T2 + 273.15)
           - 216.7 * (6.112 * E1) / (T1 + 273.15))
    with (216.7 * 6.112 * E1 * (X * (T1 + 273.15) - (T2 + 273.15))
          / ((T1 + 273.15) * (T2 + 273.15)))
    by (field; lra).
  apply Rdiv_lt_0_compat; [|apply Rmult_lt_0_compat; lra].
  apply Rmult_lt_0_compat; [lra|].
  assert ((g2 - g1) * (T1 + 273.15) < (X - 1) * (T1 + 273.15))
    by (apply Rmult_lt_compat_r; lra).
  lra.
Qed.

End Magnus.

(** C9.  On the range 0 to 40 degrees Celsius [rho_saturacion] returns
    [216.7 * (6.112 * exp (17.62 * T / (243.12 + T))) / (T + 273.15)],
    which is strictly positive and strictly increasing. *)
Theorem rho_saturacion_positiva_creciente (T1 T2 : R) :
  0 <= T1 -> T1 < T2 -> T2 <= 40 ->
  exists r1 r2 : R,
    rho_saturacion T1 = Ok r1 /\ rho_saturacion T2 = Ok r2
    /\ r1 = 216.7 * (6.112 * exp (17.62 * T1 / (243.12 + T1)))
            / (T1 + 273.15)
    /\ r2 = 216.7 * (6.112 * exp (17.62 * T2 / (243.12 + T2)))
            / (T2 + 273.15)
    /\ 0 < r1 /\ 0 < r2 /\ r1 < r2.
Proof.
  intros H1 H12 H2. exists (rho_sat_de T1), (rho_sat_de T2).
  split; [apply rho_saturacion_ok; lra|].
  split; [apply rho_saturacion_ok; lra|].
  split; [reflexivity|]. split; [reflexivity|].
  split; [apply rho_sat_de_pos; unfold temperatura_admisible; lra|].
  split; [apply rho_sat_de_pos; unfold temperatura_admisible; lra|].
  apply rho_sat_de_creciente; assumption.
Qed.

Lemma rho_saturacion_positiva_creciente_witness :
  exists r1 r2 : R,
    rho_saturacion 0 = Ok r1 /\ rho_saturacion 20 = Ok r2
    /\ r1 = 216.7 * (6.112 * exp (17.62 * 0 / (243.12 + 0))) / (0 + 273.15)
    /\ r2 = 216.7 * (6.112 * exp (17.62 * 20 / (243.12 + 20)))
            / (20 + 273.15)
    /\ 0 < r1 /\ 0 < r2 /\ r1 < r2.
Proof.
  apply (rho_saturacion_positiva_creciente 0 20); lra.
Defined.

(** ** Condensation modes *)

Lemma perdida_cond_otro_modo (c : Config) (m : string) (rho_sat rho : R) :
  m <> "fijo"%string ->
  perdida_cond (con_modo c m) rho_sat rho
  = perdida_cond (con_modo c "proporcional") rho_sat rho.
Proof.
  intros Hm. rewrite !perdida_cond_proporcional; [reflexivity | | exact Hm].
  discriminate.
Qed.

Lemma paso_otro_modo (c : Config) (m : string) (rho_sat rho_out : R)
  (i : nat) (e : Estado) :
  m <> "fijo"%string ->
  paso (con_modo c m) rho_sat rho_out i e
  = paso (con_modo c "proporcional") rho_sat rho_out i e.
Proof.
  intros Hm. unfold paso, nueva_masa.
  rewrite (perdida_cond_otro_modo c m) by assumption. reflexivity.
Qed.

Lemma bucle_otro_modo (c : Config) (m : string) (rho_sat rho_out obj : R)
  (n : nat) :
  m <> "fijo"%string ->
  forall i e,
  bucle (con_modo c m) rho_sat rho_out obj n i e
  = bucle (con_modo c "proporcional") rho_sat rho_out obj n i e.
Proof.
  intros Hm. induction n as [|n IH]; intros i e; [reflexivity|].
  cbn [bucle]. rewrite (paso_otro_modo c m) by assumption.
  destruct (paso _ rho_sat rho_out i e) as [[t e']|x]; cbn [bind];
    [|reflexivity].
  destruct (Rge_dec (rho_v e') obj); [reflexivity | apply IH].
Qed.

(** C10.  With any mode string other than 'fijo', recognized or not, the
    run is the run of mode 'proporcional': the same result or the same
    failure, and for a valid configuration a result. *)
Theorem modo_distinto_de_fijo (c : Config) (m : string) :
  m <> "fijo"%string ->
  simular_relleno (con_modo c m)
  = simular_relleno (con_modo c "proporcional")
  /\ (forall rho_sat rho,
        perdida_cond (con_modo c m) rho_sat rho
        = Rmax 0 (rho - rho_sat) * V c * k_cond c * dt c)
  /\ (config_valida c -> exists s, simular_relleno (con_modo c m) = Ok s).
Proof.
  intros Hm. split; [|split].
  - unfold simular_relleno, pasos_max. cbn [con_modo T HR0 HR_out ACH dt
      tiempo_max HR_objetivo].
    destruct (rho_saturacion (T c)) as [rs|x]; cbn [bind]; [|reflexivity].
    destruct (rho_desde_HR (HR0 c) (T c)) as [r0|x]; cbn [bind];
      [|reflexivity].
    destruct (rho_desde_HR (HR_out c) (T c)) as [ro|x]; cbn [bind];
      [|reflexivity].
    destruct (truediv (tiempo_max c) (dt c)) as [q|x]; cbn [bind];
      [|reflexivity].
    apply bucle_otro_modo. assumption.
  - intros rho_sat rho.
    rewrite perdida_cond_proporcional by exact Hm. reflexivity.
  - intros Hv. apply simular_relleno_total.
    destruct Hv. constructor; assumption.
Qed.

Lemma modo_distinto_de_fijo_witness :
  simular_relleno (con_modo config_ejemplo "vapor")
  = simular_relleno (con_modo config_ejemplo "proporcional")
  /\ (forall rho_sat rho,
        perdida_cond (con_modo config_ejemplo "vapor") rho_sat rho
        = Rmax 0 (rho - rho_sat) * 0.2 * 0.55 * 0.05)
  /\ (config_valida config_ejemplo ->
      exists s, simular_relleno (con_modo config_ejemplo "vapor") = Ok s).
Proof.
  apply (modo_distinto_de_fijo config_ejemplo "vapor"). discriminate.
Defined.

(** * Further properties of the code *)

(** ** The saturation functions *)

Lemma exponente_magnus_creciente (T1 T2 : R) :
  -243.12 < T1 -> T1 < T2 -> exponente_magnus T1 < exponente_magnus T2.
Proof.
  intros H1 H12. apply Rlt_0_minus.
  replace (exponente_magnus T2 - exponente_magnus T1)
    with (17.62 * 243.12 * (T2 - T1) / ((243.12 + T1) * (243.12 + T2)))
    by (unfold exponente_magnus; field; lra).
  apply Rdiv_lt_0_compat; [nra | apply Rmult_lt_0_compat; lra].
Qed.

Lemma exponente_magnus_cota (T_c : R) :
  -243.12 < T_c -> exponente_magnus T_c < 17.62.
Proof.
  intros H. apply Rlt_0_minus.
  replace (17.62 - exponente_magnus T_c)
    with (17.62 * 243.12 / (243.12 + T_c))
    by (unfold exponente_magnus; field; lra).
  apply Rdiv_lt_0_compat; lra.
Qed.

(** X1.  [presion_saturacion] raises [ZeroDivisionError] exactly at
    -243.12 degrees Celsius, where the Magnus exponent divides by zero.
    On atmospheric temperatures it returns
    [6.112 * exp (17.62 * T / (243.12 + T))], which is positive, strictly
    increasing and below [6.112 * exp 17.62]. *)
Theorem presion_saturacion_dominio :
  (forall T_c,
     presion_saturacion T_c = Raise ZeroDivisionError <-> T_c = -243.12)
  /\ (forall T1 T2,
        -100 <= T1 -> T1 < T2 -> T2 <= 100 ->
        exists e1 e2,
          presion_saturacion T1 = Ok e1 /\ presion_saturacion T2 = Ok e2
          /\ e1 = 6.112 * exp (17.62 * T1 / (243.12 + T1))
          /\ e2 = 6.112 * exp (17.62 * T2 / (243.12 + T2))
          /\ 0 < e1 /\ e1 < e2 /\ e2 < 6.112 * exp 17.62).
Proof.
  assert (Hok : forall T_c, T_c <> -243.12 ->
            presion_saturacion T_c = Ok (6.112 * exp (exponente_magnus T_c))).
  { intros T_c H. unfold presion_saturacion.
    rewrite truediv_ok by lra. reflexivity. }
  split.
  - intros T_c. split.
    + intros H. destruct (Req_dec_T T_c (-243.12)) as [E|E]; [exact E|].
      rewrite Hok in H by assumption. discriminate.
    + intros ->. unfold presion_saturacion.
      replace (243.12 + -243.12) with 0 by lra.
      rewrite truediv_cero. reflexivity.
  - intros T1 T2 H1 H12 H2.
    exists (6.112 * exp (exponente_magnus T1)),
           (6.112 * exp (exponente_magnus T2)).
    split; [apply Hok; lra|]. split; [apply Hok; lra|].
    split; [reflexivity|]. split; [reflexivity|].
    pose proof (exp_pos (exponente_magnus T1)).
    assert (Ha : -243.12 < T1) by lra.
    pose proof (exp_increasing _ _ (exponente_magnus_creciente T1 T2 Ha H12)).
    assert (Hb : -243.12 < T2) by lra.
    pose proof (exp_increasing _ _ (exponente_magnus_cota T2 Hb)).
    repeat split; lra.
Qed.

Lemma rho_saturacion_polo (T_c : R) :
  T_c = -243.12 \/ T_c = -273.15 ->
  rho_saturacion T_c = Raise ZeroDivisionError.
Proof.
  intros H. unfold rho_saturacion, presion_saturacion.
  destruct (Req_dec_T T_c (-243.12)) as [E|E].
  - rewrite E. replace (243.12 + -243.12) with 0 by lra.
    rewrite truediv_cero. reflexivity.
  - destruct H as [H|H]; [contradiction|].
    rewrite truediv_ok by lra. cbn [bind]. rewrite H.
    replace (-273.15 + 273.15) with 0 by lra.
    rewrite truediv_cero. reflexivity.
Qed.

Lemma rho_sat_de_signo (T_c : R) :
  T_c <> -243.12 -> T_c <> -273.15 ->
  rho_sat_de T_c <> 0 /\ (0 < rho_sat_de T_c <-> -273.15 < T_c).
Proof.
  intros H1 H2. unfold rho_sat_de.
  pose proof (exp_pos (17.62 * T_c / (243.12 + T_c))) as He.
  set (n := 216.7 * (6.112 * exp (17.62 * T_c / (243.12 + T_c)))) in *.
  assert (Hn : 0 < n) by (unfold n; lra).
  destruct (Rlt_dec (-273.15) T_c) as [Hs|Hs].
  - assert (0 < n / (T_c + 273.15)) by (apply Rdiv_lt_0_compat; lra).
    split; [lra | split; intros; lra].
  - assert (Hneg : 0 < n / - (T_c + 273.15))
      by (apply Rdiv_lt_0_compat; lra).
    replace (n / - (T_c + 273.15)) with (- (n / (T_c + 273.15))) in Hneg
      by (field; lra).
    split; [lra | split; intros; lra].
Qed.

(** X2.  [rho_saturacion] raises [ZeroDivisionError] exactly at -243.12
    and at -273.15 degrees Celsius (absolute zero).  Below absolute zero
    it returns a negative density; on atmospheric temperatures it
    returns a positive one. *)
Theorem rho_saturacion_dominio (T_c : R) :
  (rho_saturacion T_c = Raise ZeroDivisionError
   <-> T_c = -243.12 \/ T_c = -273.15)
  /\ (T_c < -273.15 ->
      exists rho, rho_saturacion T_c = Ok rho /\ rho < 0)
  /\ (temperatura_atmosferica T_c ->
      exists rho, rho_saturacion T_c = Ok rho /\ 0 < rho).
Proof.
  split; [|split].
  - split; [|apply rho_saturacion_polo].
    intros H.
    destruct (Req_dec_T T_c (-243.12)) as [E|E]; [left; exact E|].
    destruct (Req_dec_T T_c (-273.15)) as [E'|E']; [right; exact E'|].
    rewrite rho_saturacion_ok in H by assumption. discriminate.
  - intros H. exists (rho_sat_de T_c).
    split; [apply rho_saturacion_ok; lra|].
    destruct (rho_sat_de_signo T_c) as [Hnz Hs]; [lra | lra |].
    destruct (Rlt_dec 0 (rho_sat_de T_c)) as [Hp|Hp]; [|lra].
    apply Hs in Hp. lra.
  - intros H. destruct (atmosferica_admisible _ H) as (H1 & H2 & Hp).
    exists (rho_sat_de T_c). split; [apply rho_saturacion_ok; assumption|].
    exact Hp.
Qed.

(** ** A horizon shorter than a step *)



(** ** Relative humidities of a run *)

Lemma HR_de_rho_acotada (rho_sat x : R) :
  0 < rho_sat -> 0 <= x <= rho_sat -> 0 <= x / rho_sat * 100 <= 100.
Proof.
  intros Hs Hx. pose proof (Rinv_0_lt_compat _ Hs) as Hi.
  assert (E : rho_sat * / rho_sat = 1) by (apply Rinv_r; lra).
  unfold Rdiv. split; nra.
Qed.

(** X7.  For every valid configuration at an atmospheric temperature,
    and whatever finite double the quotient [tiempo_max / dt] rounds to,
    the relative humidities the example block plots,
    [rhos / rho_sat * 100], are as many as the times and all lie between
    0 and 100. *)
Theorem humedades_graficadas (fl : R -> option R) (c : Config) (q' : R) :
  config_valida c ->
  temperatura_atmosferica (T c) ->
  fl (tiempo_max c / dt c) = Some q' ->
  exists s,
    simular_relleno_redondeado fl c = Ok s
    /\ length (HRs (r_rhos s) (r_rho_sat s)) = length (r_tiempos s)
    /\ Forall (fun h => 0 <= h <= 100) (HRs (r_rhos s) (r_rho_sat s)).
Proof.
  intros Hv HT Hq.
  destruct (atmosferica_admisible _ HT) as (H1 & H2 & Hpos).
  destruct (simular_relleno_redondeado_total fl c q') as [s Hs];
    try assumption; try (destruct Hv; lra).
  exists s. split; [assumption|].
  destruct (simular_relleno_redondeado_traza fl c s Hs)
    as (q'' & news & _ & _ & Hr & Hti & Hc & _ & _ & Hsat & _).
  rewrite Hsat, Hr, Hti. set (rs := rho_sat_de (T c)) in *.
  unfold HRs. split.
  - cbn [map length]. rewrite !length_map, length_seq. reflexivity.
  - apply Forall_map. constructor.
    + apply HR_de_rho_acotada; [assumption|].
      pose proof (v_HR0 c Hv). nra.
    + apply (cadena_acotada c rs _ news) in Hc; [|lra].
      revert Hc. apply Forall_impl. intros x Hx.
      apply HR_de_rho_acotada; assumption.
Qed.

Lemma humedades_graficadas_witness :
  exists s,
    simular_relleno_redondeado Some config_ejemplo = Ok s
    /\ length (HRs (r_rhos s) (r_rho_sat s)) = length (r_tiempos s)
    /\ Forall (fun h => 0 <= h <= 100) (HRs (r_rhos s) (r_rho_sat s)).
Proof.
  apply (humedades_graficadas Some config_ejemplo (60 / 0.05)).
  - exact config_ejemplo_valida.
  - unfold temperatura_atmosferica. cbn. lra.
  - reflexivity.
Defined.

(** X8.  For every valid configuration at an atmospheric temperature a
    target above 100 % is never reached, whatever the injection: with a
    finite quotient [tiempo_max / dt] all the steps run and no arrival
    time is reported. *)
Theorem objetivo_sobre_saturacion (fl : R -> option R) (c : Config)
  (q' : R) :
  config_valida c ->
  temperatura_atmosferica (T c) ->
  100 < HR_objetivo c ->
  fl (tiempo_max c / dt c) = Some q' ->
  exists s,
    simular_relleno_redondeado fl c = Ok s
    /\ r_t_obj s = None
    /\ length (r_rhos s) = S (Z.to_nat (Int_part q')).
Proof.
  intros Hv HT Hobj Hq.
  destruct (atmosferica_admisible _ HT) as (H1 & H2 & Hpos).
  destruct (simular_relleno_redondeado_total fl c q') as [s Hs];
    try assumption; try (destruct Hv; lra).
  exists s. split; [assumption|].
  destruct (simular_relleno_redondeado_traza fl c s Hs)
    as (q'' & news & Hq'' & _ & Hr & _ & Hc & _ & _ & _ & Hnone & Hsome).
  set (rs := rho_sat_de (T c)) in *.
  apply (cadena_acotada c rs _ news) in Hc; [|lra].
  rewrite Forall_forall in Hc.
  assert (Hn : r_t_obj s = None).
  { destruct (r_t_obj s) as [t|] eqn:Et; [exfalso | reflexivity].
    destruct (Hsome t eq_refl) as (pre & y & E & _ & Hy & _).
    assert (Hb : 0 <= y <= rs)
      by (apply Hc; rewrite E; apply in_or_app; right; left; reflexivity).
    unfold rho_objetivo_de in Hy. fold rs in Hy. nra. }
  split; [exact Hn|]. destruct (Hnone Hn) as [E _].
  rewrite Hr. cbn [length]. congruence.
Qed.

Lemma objetivo_sobre_saturacion_witness :
  exists s,
    simular_relleno_redondeado Some config_objetivo_120 = Ok s
    /\ r_t_obj s = None
    /\ length (r_rhos s) = S (Z.to_nat (Int_part (60 / 0.05))).
Proof.
  apply (objetivo_sobre_saturacion Some config_objetivo_120 (60 / 0.05)).
  - constructor; unfold temperatura_admisible; cbn; lra.
  - unfold temperatura_atmosferica. cbn. lra.
  - cbn. lra.
  - reflexivity.
Defined.

(** ** The condensation coefficient in the proportional mode *)

Lemma nueva_masa_sin_exceso (c : Config) (k rho_sat rho_out x : R) :
  modo_cond c <> "fijo"%string -> x <= rho_sat ->
  perdida_cond (con_k_cond c k) rho_sat x = 0
  /\ nueva_masa (con_k_cond c k) rho_sat rho_out x
     = masa_actual c x + masa_in c - perdida_vent c rho_out x.
Proof.
  intros Hm Hx.
  assert (E : perdida_cond (con_k_cond c k) rho_sat x = 0).
  { rewrite perdida_cond_proporcional by exact Hm.
    rewrite Rmax_left by lra. ring. }
  split; [exact E|]. unfold nueva_masa. rewrite E.
  unfold masa_actual, masa_in, perdida_vent. cbn. ring.
Qed.

Lemma con_k_cond_mismo (c : Config) : con_k_cond c (k_cond c) = c.
Proof. destruct c. reflexivity. Qed.

Lemma paso_sin_exceso (c : Config) (k rho_sat rho_out x : R) :
  modo_cond c <> "fijo"%string -> x <= rho_sat ->
  perdida_cond (con_k_cond c k) rho_sat x = perdida_cond c rho_sat x
  /\ siguiente_rho (con_k_cond c k) rho_sat rho_out x
     = siguiente_rho c rho_sat rho_out x
  /\ exceso_tope (con_k_cond c k) rho_sat rho_out x
     = exceso_tope c rho_sat rho_out x.
Proof.
  intros Hm Hx.
  destruct (nueva_masa_sin_exceso c k rho_sat rho_out x Hm Hx) as [E1 E2].
  destruct (nueva_masa_sin_exceso c (k_cond c) rho_sat rho_out x Hm Hx)
    as [E3 E4].
  rewrite con_k_cond_mismo in E3, E4.
  unfold siguiente_rho, exceso_tope. rewrite E1, E2, E3, E4.
  repeat split; reflexivity.
Qed.

Lemma bucle_sin_exceso (c : Config) (k rho_sat rho_out obj : R) (n : nat) :
  modo_cond c <> "fijo"%string -> V c <> 0 -> 0 <= rho_sat ->
  forall i e, rho_v e <= rho_sat ->
  bucle (con_k_cond c k) rho_sat rho_out obj n i e
  = bucle c rho_sat rho_out obj n i e.
Proof.
  intros Hm HV Hs. induction n as [|n IH]; intros i e He; [reflexivity|].
  rewrite !bucle_S by (cbn; assumption). cbv zeta.
  destruct (paso_sin_exceso c k rho_sat rho_out (rho_v e) Hm He)
    as (E1 & E2 & E3).
  rewrite E1, E2, E3.
  change (dt (con_k_cond c k)) with (dt c).
  change (masa_in (con_k_cond c k)) with (masa_in c).
  destruct (Rge_dec _ obj); [reflexivity|].
  apply IH. cbn [rho_v]. apply siguiente_rho_acotado. assumption.
Qed.

(** X9.  In every mode other than 'fijo' a valid configuration never
    computes a condensation loss: the density never exceeds saturation,
    so the loss is 0 at every recorded density, and the run is the same
    whatever the condensation coefficient. *)
Theorem k_cond_sin_efecto (c : Config) :
  config_valida c ->
  modo_cond c <> "fijo"%string ->
  (forall k, simular_relleno (con_k_cond c k) = simular_relleno c)
  /\ exists s,
       simular_relleno c = Ok s
       /\ Forall (fun rho => perdida_cond c (r_rho_sat s) rho = 0)
            (r_rhos s).
Proof.
  intros Hv Hm.
  destruct (valida_admisible c Hv) as (H1 & H2 & H3 & H4 & Hpos).
  split.
  - intros k. rewrite !simular_relleno_eq by (cbn; assumption).
    unfold pasos_de, rho_objetivo_de. cbn [con_k_cond T HR0 HR_out dt
      tiempo_max HR_objetivo].
    apply bucle_sin_exceso; try assumption; [lra|].
    cbn [estado_inicial rho_v]. pose proof (v_HR0 c Hv). nra.
  - destruct (simular_relleno_total c Hv) as [s Hs]. exists s.
    split; [assumption|].
    destruct (simular_relleno_traza c s Hs)
      as (news & _ & Hr & _ & Hc & _ & _ & Hsat & _).
    rewrite Hsat, Hr. set (rs := rho_sat_de (T c)) in *.
    assert (Hcero : forall x, x <= rs -> perdida_cond c rs x = 0).
    { intros x Hx. rewrite perdida_cond_proporcional by exact Hm.
      rewrite Rmax_left by lra. ring. }
    constructor.
    + apply Hcero. pose proof (v_HR0 c Hv). nra.
    + apply (cadena_acotada c rs _ news) in Hc; [|lra].
      revert Hc. apply Forall_impl. intros x Hx. apply Hcero. lra.
Qed.

Lemma k_cond_sin_efecto_witness :
  let c := con_modo config_ejemplo "proporcional" in
  (forall k, simular_relleno (con_k_cond c k) = simular_relleno c)
  /\ exists s,
       simular_relleno c = Ok s
       /\ Forall (fun rho => perdida_cond c (r_rho_sat s) rho = 0)
            (r_rhos s).
Proof.
  apply (k_cond_sin_efecto (con_modo config_ejemplo "proporcional")).
  - constructor; unfold temperatura_admisible; cbn; lra.
  - discriminate.
Defined.

(** ** Reaching the target *)

Lemma nueva_masa_gana (c : Config) (rho_sat x : R) :
  0 < V c -> 0 <= ACH c -> 0 < dt c -> 0 <= k_cond c ->
  x <= rho_sat ->
  nueva_masa c rho_sat (HR_out c / 100 * rho_sat) x
    >= x * V c + ganancia_minima c rho_sat.
Proof.
  intros HV HA Hdt Hk Hx.
  assert (Hc : perdida_cond c rho_sat x <= k_cond c * dt c).
  { unfold perdida_cond. destruct (String.eqb (modo_cond c) "fijo").
    - apply Rmin_l.
    - cbv zeta. rewrite Rmax_left by lra. nra. }
  unfold nueva_masa, ganancia_minima, masa_actual, masa_in, perdida_vent.
  cbv zeta. set (ro := HR_out c / 100 * rho_sat).
  set (q := ACH c * V c / 60).
  assert (Hq : 0 <= q)
    by (unfold q; apply Rmult_le_pos; [apply Rmult_le_pos|]; lra).
  assert (0 <= q * dt c) by (apply Rmult_le_pos; lra).
  assert (q * (x - ro) * dt c <= q * (rho_sat - ro) * dt c) by nra.
  lra.
Qed.

Lemma siguiente_rho_gana (c : Config) (rho_sat x : R) :
  0 < V c -> 0 <= ACH c -> 0 < dt c -> 0 <= k_cond c ->
  x <= rho_sat ->
  siguiente_rho c rho_sat (HR_out c / 100 * rho_sat) x < rho_sat ->
  siguiente_rho c rho_sat (HR_out c / 100 * rho_sat) x
    >= x + ganancia_minima c rho_sat / V c.
Proof.
  intros HV HA Hdt Hk Hx.
  pose proof (nueva_masa_gana c rho_sat x HV HA Hdt Hk Hx) as HN.
  unfold siguiente_rho. cbv zeta.
  set (N := nueva_masa c rho_sat (HR_out c / 100 * rho_sat) x) in *.
  assert (HNV : N / V c >= x + ganancia_minima c rho_sat / V c).
  { apply Rle_ge. apply (Rmult_le_reg_r (V c)); [assumption|].
    replace (N / V c * V c) with N by (field; lra).
    replace ((x + ganancia_minima c rho_sat / V c) * V c)
      with (x * V c + ganancia_minima c rho_sat) by (field; lra).
    lra. }
  pose proof (Rmax_r 0 (N / V c)) as Hm.
  destruct (Rgt_dec (Rmax 0 (N / V c)) rho_sat) as [H|H]; intros Hlt; lra.
Qed.

Lemma cadena_gana (c : Config) (rho_sat obj : R) (l : list R) :
  0 < V c -> 0 <= ACH c -> 0 < dt c -> 0 <= k_cond c ->
  obj <= rho_sat ->
  forall x, x <= rho_sat ->
  cadena (siguiente_rho c rho_sat (HR_out c / 100 * rho_sat)) x l ->
  Forall (fun r => r < obj) l ->
  last (x :: l) 0
    >= x + INR (length l) * (ganancia_minima c rho_sat / V c).
Proof.
  intros HV HA Hdt Hk Ho. induction l as [|y l IH]; intros x Hx Hc HF.
  - cbn. lra.
  - destruct Hc as [Ey Hc]. inversion HF as [|? ? Hy Hl]; subst.
    set (y := siguiente_rho c rho_sat (HR_out c / 100 * rho_sat) x) in *.
    assert (Hys : y < rho_sat) by lra.
    pose proof (siguiente_rho_gana c rho_sat x HV HA Hdt Hk Hx Hys) as Hg.
    fold y in Hg.
    assert (Hyle : y <= rho_sat) by lra.
    specialize (IH y Hyle Hc Hl).
    change (last (x :: y :: l) 0) with (last (y :: l) 0).
    cbn [length]. rewrite S_INR. lra.
Qed.

Lemma ultimo_cumple (P : R -> Prop) (l : list R) (x : R) :
  l <> [] -> Forall P l -> P (last (x :: l) 0).
Proof.
  intros Hl HF. destruct (exists_last Hl) as (l' & a & ->).
  change (x :: l' ++ [a]) with ((x :: l') ++ [a]). rewrite last_last.
  rewrite Forall_forall in HF. apply HF. apply in_or_app. right. left.
  reflexivity.
Qed.

(** Saturation density at 20 degrees Celsius, bounded from above. *)
Lemma rho_sat_de_20_cota : rho_sat_de 20 < 42.
Proof.
  unfold rho_sat_de. set (x := 17.62 * 20 / (243.12 + 20)).
  set (h := x / 2).
  assert (Hh : 0.66 < h < 0.67) by (unfold h, x; lra).
  assert (H1 : 1 + - h < exp (- h)) by (apply exp_ineq1; lra).
  assert (H2 : exp h * exp (- h) = 1).
  { rewrite <- exp_plus. replace (h + - h) with 0 by ring. apply exp_0. }
  assert (H3 : exp x = exp h * exp h).
  { rewrite <- exp_plus. f_equal. unfold h. lra. }
  pose proof (exp_pos h) as H4.
  assert (H5 : exp h < 3.04) by nra.
  assert (H6 : exp x < 9.25) by (rewrite H3; nra).
  apply (Rmult_lt_reg_r (20 + 273.15)); [lra|].
  replace (216.7 * (6.112 * exp x) / (20 + 273.15) * (20 + 273.15))
    with (216.7 * (6.112 * exp x)) by (field; lra).
  lra.
Qed.

(** X11.  If injection beats the largest possible losses, the target is
    reached.  For a valid configuration at an atmospheric temperature
    with a target of at most 100 %, let [g] be the least mass a step can
    gain ([dotm * dt - k_cond * dt] minus the ventilation loss at
    saturation) and let the loop be given [n] steps, the floor of the
    double quotient [tiempo_max / dt].  If [g] is positive and [n - 1]
    steps of gain [g] suffice to take the enclosure from dry to
    saturation, an arrival time of at least [dt] is reported, with a
    last density that meets the target. *)
Theorem inyeccion_dominante_alcanza (fl : R -> option R) (c : Config)
  (q' : R) :
  config_valida c ->
  temperatura_atmosferica (T c) ->
  HR_objetivo c <= 100 ->
  0 < ganancia_minima c (rho_sat_de (T c)) ->
  fl (tiempo_max c / dt c) = Some q' ->
  2 <= q' ->
  rho_sat_de (T c) * V c
    <= (IZR (Int_part q') - 1) * ganancia_minima c (rho_sat_de (T c)) ->
  exists s t,
    simular_relleno_redondeado fl c = Ok s
    /\ r_t_obj s = Some t
    /\ dt c <= t
    /\ last (r_rhos s) 0 >= rho_objetivo_de c (r_rho_sat s)
    /\ (length (r_rhos s) <= S (Z.to_nat (Int_part q')))%nat.
Proof.
  intros Hv HT Hobj Hg Hq Hq2 Hllena.
  destruct (atmosferica_admisible _ HT) as (H1 & H2 & Hpos).
  destruct (simular_relleno_redondeado_total fl c q') as [s Hs];
    try assumption; try (destruct Hv; lra).
  destruct (simular_relleno_redondeado_traza fl c s Hs)
    as (q'' & news & Hq'' & Hlen & Hr & _ & Hc & _ & _ & Hsat & Hnone
        & Hsome).
  assert (Eq : q'' = q') by congruence. subst q''.
  set (rs := rho_sat_de (T c)) in *.
  set (g := ganancia_minima c rs) in *.
  set (obj := rho_objetivo_de c rs) in *.
  set (rho0 := HR0 c / 100 * rs) in *.
  pose proof (v_V c Hv) as HV. pose proof (v_ACH c Hv) as HA.
  pose proof (v_dt c Hv) as Hdt. pose proof (v_k_cond c Hv) as Hk.
  assert (Hors : obj <= rs) by (unfold obj, rho_objetivo_de; nra).
  assert (H0rs : rho0 <= rs)
    by (unfold rho0; pose proof (v_HR0 c Hv); nra).
  assert (H0 : 0 <= rho0)
    by (unfold rho0; pose proof (v_HR0 c Hv); nra).
  assert (Hbasta : (obj - rho0) * V c <= (IZR (Int_part q') - 1) * g)
    by nra.
  destruct (base_Int_part q') as [_ Hb].
  assert (Hz : (1 <= Int_part q')%Z).
  { apply Z.lt_succ_r. apply lt_IZR. rewrite succ_IZR. lra. }
  assert (EN : INR (Z.to_nat (Int_part q')) = IZR (Int_part q'))
    by (rewrite INR_IZR_INZ, Z2Nat.id by lia; reflexivity).
  destruct (r_t_obj s) as [t|] eqn:Et.
  - exists s, t. split; [assumption|]. split; [exact Et|].
    destruct (Hsome t eq_refl) as (pre & y & E & Hpre & Hy & Ht).
    assert (Hk1 : length news = S (length pre))
      by (rewrite E, length_app; cbn; lia).
    rewrite Hk1, S_INR in Ht. pose proof (pos_INR (length pre)) as Hp.
    split; [subst t; nra|]. split.
    + rewrite Hsat, Hr, E.
      change (rho0 :: pre ++ [y]) with ((rho0 :: pre) ++ [y]).
      rewrite last_last. exact Hy.
    + rewrite Hr. cbn [length]. lia.
  - exfalso. destruct (Hnone eq_refl) as [En Hall].
    pose proof (cadena_gana c rs obj news HV HA Hdt Hk Hors rho0 H0rs
                  Hc Hall) as Hgana.
    fold g in Hgana.
    assert (Hne : news <> []) by (intros ->; cbn in En; lia).
    pose proof (ultimo_cumple (fun r => r < obj) news rho0 Hne Hall) as Hult.
    cbv beta in Hult. rewrite En, EN in Hgana.
    assert (HgV : IZR (Int_part q') * (g / V c) * V c
                  = IZR (Int_part q') * g) by (field; lra).
    assert (IZR (Int_part q') * (g / V c) * V c < (obj - rho0) * V c)
      by (apply Rmult_lt_compat_r; lra).
    rewrite HgV in H. nra.
Qed.

Lemma inyeccion_dominante_alcanza_witness :
  exists s t,
    simular_relleno_redondeado Some config_ejemplo = Ok s
    /\ r_t_obj s = Some t
    /\ 0.05 <= t
    /\ last (r_rhos s) 0 >= rho_objetivo_de config_ejemplo (r_rho_sat s)
    /\ (length (r_rhos s) <= S (Z.to_nat (Int_part (60 / 0.05))))%nat.
Proof.
  pose proof rho_sat_de_20_cota as Hcota.
  pose proof (rho_sat_de_pos 20 (v_T _ config_ejemplo_valida)) as Hpos.
  apply (inyeccion_dominante_alcanza Some config_ejemplo (60 / 0.05)
           config_ejemplo_valida).
  - unfold temperatura_atmosferica. cbn. lra.
  - cbn. lra.
  - unfold ganancia_minima. cbn. lra.
  - reflexivity.
  - lra.
  - rewrite (Int_part_entre _ 1200) by lra.
    unfold ganancia_minima. cbn. lra.
Defined.
